(** * Resident feedback analysis pipeline: a shallow embedding

    The development follows [analysis_pipeline.py].  Python strings are
    modelled as [string], Python exceptions as an explicit outcome type,
    pandas series as association lists in index order, and the external
    libraries (TextBlob's polarity, pandas' timestamp parser, the file
    system, float rounding and float formatting) as parameters of the
    functions that call them. *)

From Stdlib Require Import List Arith ZArith Lia Bool Ascii String.
From Stdlib Require Import QArith Qabs Qround Lqa.
From Stdlib Require Import Sorting.Sorted Sorting.Permutation DecimalString.
Import ListNotations.

Local Close Scope Q_scope.
Local Open Scope string_scope.
Local Open Scope list_scope.
Local Open Scope nat_scope.

(** ** Python string operations *)

Module PyStr.

(** [c.lower()] on one ASCII character; bytes outside [A-Z] are unchanged.
    Python also lower-cases letters outside ASCII; texts with such
    letters are outside what [lower] models. *)
Definition lower_ascii (c : ascii) : ascii :=
  let n := nat_of_ascii c in
  if (65 <=? n) && (n <=? 90) then ascii_of_nat (n + 32) else c.

(** [text.lower()] *)
Fixpoint lower (s : string) : string :=
  match s with
  | EmptyString => EmptyString
  | String c s' => String (lower_ascii c) (lower s')
  end.

(** [text.startswith(kw)] *)
Fixpoint startswith (kw text : string) : bool :=
  match kw, text with
  | EmptyString, _ => true
  | String _ _, EmptyString => false
  | String a kw', String b text' => Ascii.eqb a b && startswith kw' text'
  end.

(** [kw in text]: plain substring search, trying every start position. *)
Fixpoint contains (kw text : string) : bool :=
  startswith kw text ||
  match text with
  | EmptyString => false
  | String _ text' => contains kw text'
  end.

(** [any(kw in text for kw in kws)] *)
Definition any_in (kws : list string) (text : string) : bool :=
  existsb (fun kw => contains kw text) kws.

End PyStr.

(** ** 1. Data processing: the topic classifier *)

Definition classify_topic (text : string) : string :=
  let text := PyStr.lower text in
  if PyStr.any_in ["park"; "playground"; "library"; "program"; "community center"] text
  then "Parks, Rec & Library"
  else if PyStr.any_in ["trash"; "recycling"; "pickup"; "sweeping"] text
  then "Public Works - Sanitation"
  else if PyStr.any_in ["pothole"; "road"; "traffic"; "street"; "crosswalk"] text
  then "Public Works - Transportation"
  else if PyStr.any_in ["zoning"; "permit"; "construction"; "license"] text
  then "Community Development"
  else if PyStr.any_in ["bill"; "main break"; "quality"; "sewer"] text
  then "Water Resources"
  else if PyStr.any_in ["police"; "fire"; "officer"; "emergency"] text
  then "Public Safety"
  else if PyStr.any_in ["yard"; "noise"; "vehicle"] text
  then "Code Enforcement"
  else "General Inquiry".

(** The same chain read as a table: the rules in the order the [if]
    statements are written, each with its keyword list and its label. *)
Definition topic_rules : list (list string * string) :=
  [ (["park"; "playground"; "library"; "program"; "community center"],
     "Parks, Rec & Library");
    (["trash"; "recycling"; "pickup"; "sweeping"], "Public Works - Sanitation");
    (["pothole"; "road"; "traffic"; "street"; "crosswalk"],
     "Public Works - Transportation");
    (["zoning"; "permit"; "construction"; "license"], "Community Development");
    (["bill"; "main break"; "quality"; "sewer"], "Water Resources");
    (["police"; "fire"; "officer"; "emergency"], "Public Safety");
    (["yard"; "noise"; "vehicle"], "Code Enforcement") ].

Definition default_topic : string := "General Inquiry".

(** The labels in declaration order, the default last. *)
Definition topic_labels : list string :=
  map snd topic_rules ++ [default_topic].

(** First rule of a table that matches an already lower-cased text. *)
Fixpoint first_match (rules : list (list string * string)) (text : string)
  : option string :=
  match rules with
  | [] => None
  | (kws, label) :: rest =>
      if PyStr.any_in kws text then Some label else first_match rest text
  end.

(** Position of a label in the declaration order. *)
Fixpoint index_of (x : string) (l : list string) : nat :=
  match l with
  | [] => 0
  | y :: l' => if String.eqb x y then 0 else S (index_of x l')
  end.

Definition declaration_index (label : string) : nat :=
  index_of label topic_labels.

(** ** Python outcomes

    A call either returns a value or raises.  The exceptions are the ones
    the modelled steps raise: [IndexError] from [index[0]] and [iloc[0]]
    on an empty series, [ValueError] from [idxmax] on an empty series,
    the parse error of [pd.to_datetime], which carries the offending
    cell, [AttributeError] from [text.lower()] on a missing cell (a
    float), and [TypeError] from [TextBlob] on one.  What [pd.read_csv]
    itself can raise on a malformed file is not modelled. *)

Inductive exn : Type :=
| IndexError
| ValueError
| DateParseError (cell : string)
| AttributeError
| TypeError.

(** The class name of an exception, as a traceback prints it. *)
Definition exn_name (e : exn) : string :=
  match e with
  | IndexError => "IndexError"
  | ValueError => "ValueError"
  | DateParseError _ => "DateParseError"
  | AttributeError => "AttributeError"
  | TypeError => "TypeError"
  end.

Inductive outcome (A : Type) : Type :=
| Return (a : A)
| Raise (e : exn).

Arguments Return {A} a.
Arguments Raise {A} e.

Definition bind {A B : Type} (m : outcome A) (f : A -> outcome B) : outcome B :=
  match m with
  | Return a => f a
  | Raise e => Raise e
  end.

Notation "x <- m ;; k" := (bind m (fun x => k))
  (at level 61, m at next level, right associativity).

(** ** Data frames *)

(** One line of a CSV file in which no cell is missing: the two columns
    the pipeline reads.  Files with missing cells are [CsvRow] below. *)
Record RawRow : Type := mkRawRow {
  raw_timestamp : string;
  raw_feedback_text : string
}.

(** A parsed timestamp, to the day. *)
Record Timestamp : Type := mkTimestamp {
  ts_year : Z;
  ts_month : Z;   (* 1 .. 12 *)
  ts_day : Z
}.

(** [ts.to_period('M')]: the calendar year-month bucket, as the number of
    months since year 0, so that buckets compare chronologically. *)
Definition to_period_M (ts : Timestamp) : Z :=
  (12 * ts_year ts + (ts_month ts - 1))%Z.

(** A row of the processed frame whose timestamp is a date.  Rows with
    a null timestamp (NaT) are [LoadedRow] below. *)
Record Row : Type := mkRow {
  timestamp : Timestamp;
  feedback_text : string;
  topic : string;
  sentiment : string;
  month : Z
}.

Definition DataFrame : Type := list Row.

(** A pandas series: index labels with their values, in index order. *)
Definition Series (K V : Type) : Type := list (K * V).

(** ** pandas operations used by the pipeline *)

Module Pandas.

(** Number of cells of a column equal to [k]. *)
Fixpoint count (k : string) (col : list string) : nat :=
  match col with
  | [] => 0
  | x :: col' => (if String.eqb k x then 1 else 0) + count k col'
  end.

(** Distinct values of a column, in order of first appearance. *)
Fixpoint unique (col : list string) : list string :=
  match col with
  | [] => []
  | x :: col' => x :: filter (fun y => negb (String.eqb x y)) (unique col')
  end.

(** Insertion step of a descending sort that leaves equal values in
    their original order: [x] came before every entry of [s] in the
    unsorted series and stays before those of equal value.  This is one
    of the orders pandas' sort can give; [sort_values_desc_by] below
    covers all of them. *)
Fixpoint insert_desc (x : string * nat) (s : Series string nat)
  : Series string nat :=
  match s with
  | [] => [x]
  | y :: s' => if snd x <? snd y then y :: insert_desc x s' else x :: y :: s'
  end.

(** [s.sort_values(ascending=False)] when equal values keep their
    original order. *)
Definition sort_values_desc (s : Series string nat) : Series string nat :=
  fold_right insert_desc [] s.

(** [col.value_counts()]: one entry per distinct value with its number of
    occurrences, largest count first; here values with equal counts stay
    in order of first appearance in the column, which pandas does not
    promise ([value_counts_by] below leaves that order open). *)
Definition value_counts (col : list string) : Series string nat :=
  sort_values_desc (map (fun k => (k, count k col)) (unique col)).

(** [s.index[0]] *)
Definition index0 {K V : Type} (s : Series K V) : outcome K :=
  match s with
  | [] => Raise IndexError
  | (k, _) :: _ => Return k
  end.

(** [s.iloc[0]] *)
Definition iloc0 {K V : Type} (s : Series K V) : outcome V :=
  match s with
  | [] => Raise IndexError
  | (_, v) :: _ => Return v
  end.

(** [s.get(key, default)] *)
Fixpoint get {V : Type} (key : string) (default : V) (s : Series string V) : V :=
  match s with
  | [] => default
  | (k, v) :: s' => if String.eqb key k then v else get key default s'
  end.

(** Number of rows whose month bucket is [b]. *)
Definition bucket_size (b : Z) (df : DataFrame) : nat :=
  List.length (filter (fun r => (to_period_M (timestamp r) =? b)%Z) df).

(** [df.set_index('timestamp').resample('M').size()]: one bin per
    calendar month from the earliest to the latest timestamp, months
    without rows included, each with its number of rows, in
    chronological order. *)
Definition resample_M_size (df : DataFrame) : Series Z nat :=
  match map (fun r => to_period_M (timestamp r)) df with
  | [] => []
  | b :: bs =>
      let lo := fold_right Z.min b bs in
      let hi := fold_right Z.max b bs in
      map (fun i => ((lo + Z.of_nat i)%Z, bucket_size (lo + Z.of_nat i)%Z df))
          (seq 0 (S (Z.to_nat (hi - lo)%Z)))
  end.

(** Scan of [idxmax]: the entry kept so far is replaced only by a
    strictly larger value, so the first maximum wins. *)
Fixpoint idxmax_from (best : Z * nat) (s : Series Z nat) : Z :=
  match s with
  | [] => fst best
  | x :: s' =>
      if (snd best <? snd x)%nat then idxmax_from x s'
      else idxmax_from best s'
  end.

(** [s.idxmax()]: index label of the first occurrence of the maximum. *)
Definition idxmax (s : Series Z nat) : outcome Z :=
  match s with
  | [] => Raise ValueError
  | x :: s' => Return (idxmax_from x s')
  end.

End Pandas.

(** Order of two entries of a ranking: larger count first; among equal
    counts, the label with the smaller position [pos] first. *)
Definition ranks_before (pos : string -> nat) (a b : string * nat) : Prop :=
  snd b < snd a \/ (snd a = snd b /\ pos (fst a) < pos (fst b)).

(** [ts.strftime('%B')] on a month bucket. *)
Definition strftime_B (bucket : Z) : string :=
  nth (Z.to_nat (bucket mod 12)%Z)
    ["January"; "February"; "March"; "April"; "May"; "June"; "July";
     "August"; "September"; "October"; "November"; "December"] "".

(** ** Python floats

    A finite float is the rational it denotes; comparison of floats is
    comparison of these rationals. *)

Module PyFloat.

(** The literal [0.1]: the double nearest to one tenth. *)
Definition lit_0_1 : Q := (3602879701896397 # 36028797018963968)%Q.

(** [x > y] *)
Definition gtb (x y : Q) : bool := negb (Qle_bool x y).

(** [x < y] *)
Definition ltb (x y : Q) : bool := negb (Qle_bool y x).

(** Unit roundoff of binary64. *)
Definition eps : Q := (1 # 9007199254740992)%Q.

(** What is asked of a rounding function: each arithmetic result is the
    exact one up to a relative error of [eps]. *)
Definition rounds (rnd : Q -> Q) : Prop :=
  forall x : Q, (Qabs (rnd x - x) <= eps * Qabs x)%Q.

Fixpoint qsum (l : list Q) : Q :=
  match l with
  | [] => 0%Q
  | x :: l' => (x + qsum l')%Q
  end.

End PyFloat.

(** [str(n)] / [f"{n}"] for a non-negative integer. *)
Definition str_nat (n : nat) : string :=
  NilEmpty.string_of_uint (Nat.to_uint n).

(** The newline character of the triple-quoted templates. *)
Definition nl : string := String (ascii_of_nat 10) EmptyString.

(** ** The pipeline *)

Section Pipeline.

(** [TextBlob(text).sentiment.polarity] *)
Variable polarity : string -> Q.

(** How [pd.to_datetime] reads one cell; [None] when the cell is not a
    date. *)
Variable parse_datetime : string -> option Timestamp.

(** [pd.read_csv] on the file system of the run; [None] stands for
    [FileNotFoundError]. *)
Variable read_csv : string -> option (list RawRow).

(** Rounding of float arithmetic and the [:.1f] format. *)
Variable rnd : Q -> Q.
Variable format_1f : Q -> string.

Definition get_sentiment (text : string) : string :=
  let polarity := polarity text in
  if PyFloat.gtb polarity PyFloat.lit_0_1 then "Positive"
  else if PyFloat.ltb polarity (- PyFloat.lit_0_1)%Q then "Negative"
  else "Neutral".

(** [pd.to_datetime(col)] with the default [errors='raise'] on a column
    without missing cells: the whole column is converted or the call
    raises. *)
Fixpoint to_datetime (col : list string) : outcome (list Timestamp) :=
  match col with
  | [] => Return []
  | cell :: col' =>
      match parse_datetime cell with
      | None => Raise (DateParseError cell)
      | Some ts =>
          rest <- to_datetime col' ;;
          Return (ts :: rest)
      end
  end.

(** The four column assignments of [load_and_process_data], once the
    timestamp column is converted. *)
Definition add_columns (rows : list RawRow) (stamps : list Timestamp)
  : DataFrame :=
  map (fun '(r, ts) =>
         {| timestamp := ts;
            feedback_text := raw_feedback_text r;
            topic := classify_topic (raw_feedback_text r);
            sentiment := get_sentiment (raw_feedback_text r);
            month := to_period_M ts |})
      (combine rows stamps).

(** Returns [None] (after printing the error) when the file is
    missing, the processed frame otherwise. *)
Definition load_and_process_data (filepath : string)
  : outcome (option DataFrame) :=
  match read_csv filepath with
  | None => Return None
  | Some rows =>
      stamps <- to_datetime (map raw_timestamp rows) ;;
      Return (Some (add_columns rows stamps))
  end.

(** [col.value_counts(normalize=True)]: the counts divided by their
    sum. *)
Definition value_counts_normalize (col : list string) : Series string Q :=
  let counts := Pandas.value_counts col in
  let total := fold_right Nat.add 0 (map snd counts) in
  map (fun '(k, c) =>
         (k, rnd (inject_Z (Z.of_nat c) / inject_Z (Z.of_nat total))%Q))
      counts.

(** [series * 100] *)
Definition times_100 (s : Series string Q) : Series string Q :=
  map (fun '(k, v) => (k, rnd (v * 100)%Q)) s.

Definition findings_text (total_comments : nat) (overall_positive : Q)
  (most_common_topic worst_topic : string) (worst_topic_count : nat)
  (peak_month : string) : string :=
  String.concat ""
    [ "This report analyzes "; str_nat total_comments;
      " resident comments received between Jan 1 and Jun 30, 2025. The overall sentiment was ";
      format_1f overall_positive; "% positive."; nl; nl;
      "- **Highest Feedback Volume:** '"; most_common_topic;
      "' was the most frequently discussed topic, indicating it is a primary area of resident interaction.";
      nl; nl;
      "- **Primary Area of Concern:** '"; worst_topic;
      "' received the highest number of negative comments (";
      str_nat worst_topic_count;
      "), suggesting a need for operational review and intervention.";
      nl; nl;
      "- **Seasonal Trends:** Feedback volume peaked in "; peak_month;
      ", driven by seasonal issues. This predictability offers an opportunity for proactive resource allocation.";
      nl ].

Definition recommendations_text (most_common_topic worst_topic : string)
  (worst_topic_count : nat) : string :=
  String.concat ""
    [ "Based on the analysis, the following actions are recommended:"; nl; nl;
      "1.  **For the '"; worst_topic; "' Department:**"; nl;
      "    - Conduct a root-cause analysis to understand the drivers of the ";
      str_nat worst_topic_count; " negative comments."; nl;
      "    - Develop a targeted action plan to address the most common complaints within this topic.";
      nl;
      "    - Launch a communications initiative to inform the public of planned improvements.";
      nl; nl;
      "2.  **For the '"; most_common_topic; "' Department:**"; nl;
      "    - Since this is a high-volume area, review communication channels and processes to ensure they are efficient and user-friendly.";
      nl;
      "    - Leverage the high interaction rate to gather more detailed feedback through targeted surveys.";
      nl; nl;
      "3.  **Proactive Seasonal Planning:**"; nl;
      "    - Allocate additional resources to address predictable seasonal peaks, such as increased road crews for post-winter repairs or groundskeepers for parks in the spring.";
      nl;
      "    - Use historical data to anticipate needs for the next quarter and set proactive performance goals.";
      nl ].

(** [df[df['sentiment'] == 'Negative']] *)
Definition negative_rows (df : DataFrame) : DataFrame :=
  filter (fun r => String.eqb (sentiment r) "Negative") df.

Definition generate_executive_summary (df : DataFrame)
  : outcome (string * string) :=
  let total_comments := List.length df in
  let topic_counts := Pandas.value_counts (map topic df) in
  most_common_topic <- Pandas.index0 topic_counts ;;
  let sentiment_counts :=
    times_100 (value_counts_normalize (map sentiment df)) in
  let overall_positive := Pandas.get "Positive" 0%Q sentiment_counts in
  let neg_sentiment_by_topic :=
    Pandas.value_counts (map topic (negative_rows df)) in
  worst_topic <- Pandas.index0 neg_sentiment_by_topic ;;
  worst_topic_count <- Pandas.iloc0 neg_sentiment_by_topic ;;
  let monthly_volume := Pandas.resample_M_size df in
  peak <- Pandas.idxmax monthly_volume ;;
  let peak_month := strftime_B peak in
  Return (findings_text total_comments overall_positive most_common_topic
            worst_topic worst_topic_count peak_month,
          recommendations_text most_common_topic worst_topic
            worst_topic_count).

End Pipeline.

(** ** Files with missing cells

    [pd.read_csv] gives NaN for an empty cell.  The section above is
    the loader on files without such cells; this one follows the same
    statements of [load_and_process_data] on any file. *)

Inductive cell : Type :=
| NA
| Str (s : string).

Record CsvRow : Type := mkCsvRow {
  csv_timestamp : cell;
  csv_feedback_text : cell
}.

(** A row of the frame the loader returns; a timestamp or a month of
    [None] is NaT. *)
Record LoadedRow : Type := mkLoadedRow {
  l_timestamp : option Timestamp;
  l_feedback_text : cell;
  l_topic : string;
  l_sentiment : string;
  l_month : option Z
}.

Section LoadingCells.

Variable polarity : string -> Q.
Variable parse_datetime : string -> option Timestamp.

(** [pd.read_csv]; [None] stands for [FileNotFoundError]. *)
Variable read_cells : string -> option (list CsvRow).

(** [pd.to_datetime(col)]: a missing cell becomes NaT, a cell that is
    there and is not a date raises. *)
Fixpoint to_datetime_cells (col : list cell)
  : outcome (list (option Timestamp)) :=
  match col with
  | [] => Return []
  | NA :: col' =>
      rest <- to_datetime_cells col' ;;
      Return (None :: rest)
  | Str s :: col' =>
      match parse_datetime s with
      | None => Raise (DateParseError s)
      | Some ts =>
          rest <- to_datetime_cells col' ;;
          Return (Some ts :: rest)
      end
  end.

(** [col.apply(classify_topic)]: [text.lower()] fails on a missing
    cell. *)
Fixpoint apply_classify_topic (col : list cell) : outcome (list string) :=
  match col with
  | [] => Return []
  | NA :: _ => Raise AttributeError
  | Str text :: col' =>
      rest <- apply_classify_topic col' ;;
      Return (classify_topic text :: rest)
  end.

(** [col.apply(get_sentiment)]: [TextBlob] refuses a missing cell. *)
Fixpoint apply_get_sentiment (col : list cell) : outcome (list string) :=
  match col with
  | [] => Return []
  | NA :: _ => Raise TypeError
  | Str text :: col' =>
      rest <- apply_get_sentiment col' ;;
      Return (get_sentiment polarity text :: rest)
  end.

(** The frame with its four assigned columns. *)
Definition assemble (rows : list CsvRow) (stamps : list (option Timestamp))
  (topics sentiments : list string) : list LoadedRow :=
  map (fun '(r, ts, (t, s)) =>
         {| l_timestamp := ts;
            l_feedback_text := csv_feedback_text r;
            l_topic := t;
            l_sentiment := s;
            l_month := option_map to_period_M ts |})
      (combine (combine rows stamps) (combine topics sentiments)).

Definition load_and_process_data_na (filepath : string)
  : outcome (option (list LoadedRow)) :=
  match read_cells filepath with
  | None => Return None
  | Some rows =>
      stamps <- to_datetime_cells (map csv_timestamp rows) ;;
      topics <- apply_classify_topic (map csv_feedback_text rows) ;;
      sentiments <- apply_get_sentiment (map csv_feedback_text rows) ;;
      Return (Some (assemble rows stamps topics sentiments))
  end.

(** What a converted timestamp cell is: NaT for a missing cell, the
    parsed date otherwise. *)
Definition converted (c : cell) (ts : option Timestamp) : Prop :=
  match c with
  | NA => ts = None
  | Str s => parse_datetime s = ts /\ ts <> None
  end.

(** How a row of the returned frame stands to its line of the file. *)
Definition enriched (r : CsvRow) (row : LoadedRow) : Prop :=
  converted (csv_timestamp r) (l_timestamp row) /\
  l_feedback_text row = csv_feedback_text r /\
  (exists text,
      csv_feedback_text r = Str text /\
      l_topic row = classify_topic text /\
      l_sentiment row = get_sentiment polarity text) /\
  l_month row = option_map to_period_M (l_timestamp row).

End LoadingCells.

(** A file without missing cells, and a frame without NaT, in the wider
    types. *)
Definition cells_of (r : RawRow) : CsvRow :=
  {| csv_timestamp := Str (raw_timestamp r);
     csv_feedback_text := Str (raw_feedback_text r) |}.

Definition loaded_of (r : Row) : LoadedRow :=
  {| l_timestamp := Some (timestamp r);
     l_feedback_text := Str (feedback_text r);
     l_topic := topic r;
     l_sentiment := sentiment r;
     l_month := Some (month r) |}.

(** ** Rankings, whatever the sort does with equal counts

    pandas sorts the counts with an unstable sort.  The order it gives
    to entries of equal count is a function of the counts alone (the
    sort is handed the counts, not the labels); [tie counts i] is the
    rank the sort gives to position [i] among its equals, and every
    choice of [tie] is a sort pandas may run. *)

(** Insertion among entries tagged with their rank: larger counts
    first, among equal counts smaller ranks first, among equal ranks
    the original order. *)
Fixpoint insert_ranked (x : nat * (string * nat))
  (s : list (nat * (string * nat))) : list (nat * (string * nat)) :=
  match s with
  | [] => [x]
  | y :: s' =>
      if (snd (snd x) <? snd (snd y))
         || ((snd (snd x) =? snd (snd y)) && (fst y <? fst x))
      then y :: insert_ranked x s'
      else x :: y :: s'
  end.

(** [s.sort_values(ascending=False)] *)
Definition sort_values_desc_by (tie : list nat -> nat -> nat)
  (s : Series string nat) : Series string nat :=
  map snd
    (fold_right insert_ranked []
       (combine (map (tie (map snd s)) (seq 0 (List.length s))) s)).

(** [col.value_counts()] *)
Definition value_counts_by (tie : list nat -> nat -> nat) (col : list string)
  : Series string nat :=
  sort_values_desc_by tie
    (map (fun k => (k, Pandas.count k col)) (Pandas.unique col)).

(** Lines 125 and 126 of [generate_executive_summary]. *)
Definition topic_counts (tie : list nat -> nat -> nat) (df : DataFrame)
  : Series string nat :=
  value_counts_by tie (map topic df).

Definition most_common_topic (tie : list nat -> nat -> nat) (df : DataFrame)
  : outcome string :=
  Pandas.index0 (topic_counts tie df).


(** ** Stand-ins for the external libraries, used to run the pipeline on
    concrete inputs *)

Module Stub.

(** A scorer that knows four words. *)
Definition polarity (text : string) : Q :=
  let t := PyStr.lower text in
  if PyStr.any_in ["loved"; "great"] t then (1 # 2)%Q
  else if PyStr.any_in ["terrible"; "missed"] t then (- (1 # 2))%Q
  else 0%Q.

Definition digit (c : ascii) : option nat :=
  let n := nat_of_ascii c in
  if (48 <=? n) && (n <=? 57) then Some (n - 48) else None.

Fixpoint number (acc : nat) (cs : list ascii) : option nat :=
  match cs with
  | [] => Some acc
  | c :: cs' =>
      match digit c with
      | Some d => number (10 * acc + d) cs'
      | None => None
      end
  end.

(** A parser that accepts [YYYY-MM-DD] and nothing else. *)
Definition parse_datetime (cell : string) : option Timestamp :=
  match list_ascii_of_string cell with
  | [y1; y2; y3; y4; "-"%char; m1; m2; "-"%char; d1; d2] =>
      match number 0 [y1; y2; y3; y4], number 0 [m1; m2], number 0 [d1; d2] with
      | Some y, Some m, Some d =>
          if (1 <=? m) && (m <=? 12) && (1 <=? d) && (d <=? 31)
          then Some (mkTimestamp (Z.of_nat y) (Z.of_nat m) (Z.of_nat d))
          else None
      | _, _, _ => None
      end
  | _ => None
  end.

(** A file system holding one file. *)
Definition read_csv (name : string) (rows : list RawRow) (filepath : string)
  : option (list RawRow) :=
  if String.eqb filepath name then Some rows else None.

(** Exact arithmetic, and arithmetic that is always off by the full unit
    roundoff. *)
Definition rnd_exact (x : Q) : Q := x.
Definition rnd_up (x : Q) : Q := (x * (1 + PyFloat.eps))%Q.

(** [:.1f] for a non-negative rational: one decimal, ties to even. *)
Definition format_1f (q : Q) : string :=
  let t := (q * 10)%Q in
  let f := Qfloor t in
  let n :=
    match Qcompare (t - inject_Z f) (1 # 2) with
    | Lt => f
    | Gt => (f + 1)%Z
    | Eq => if Z.even f then f else (f + 1)%Z
    end in
  (str_nat (Z.to_nat (n / 10)) ++ "." ++ str_nat (Z.to_nat (n mod 10)))%string.

(** Plotting and PDF steps that always succeed. *)
Definition create_visualizations (df : DataFrame) : outcome unit := Return tt.
Definition create_pdf_report (df : DataFrame) (findings recommendations : string)
  : outcome string := Return "reports/Executive_Summary.pdf".

(** The three comments of the January/February example. *)
Definition three_rows : list RawRow :=
  [ mkRawRow "2025-01-15" "The pothole on Main St is terrible";
    mkRawRow "2025-01-20" "Loved the new park playground!";
    mkRawRow "2025-02-01" "Trash pickup was missed again" ].

(** The same file with one date that is not a date. *)
Definition rows_with_bad_date : list RawRow :=
  [ mkRawRow "2025-01-15" "The pothole on Main St is terrible";
    mkRawRow "next Tuesday" "Loved the new park playground!";
    mkRawRow "2025-02-01" "Trash pickup was missed again" ].

(** A file in which one row has no timestamp. *)
Definition read_cells (name : string) (rows : list CsvRow) (filepath : string)
  : option (list CsvRow) :=
  if String.eqb filepath name then Some rows else None.

Definition rows_with_missing_date : list CsvRow :=
  [ mkCsvRow (Str "2025-01-15") (Str "The pothole on Main St is terrible");
    mkCsvRow NA (Str "Loved the new park playground!") ].


(** The same two comments in either order. *)
Definition trash_then_park : list RawRow :=
  [ mkRawRow "2025-02-01" "Trash pickup was missed again";
    mkRawRow "2025-02-03" "Loved the new park playground!" ].

Definition park_then_trash : list RawRow :=
  [ mkRawRow "2025-02-03" "Loved the new park playground!";
    mkRawRow "2025-02-01" "Trash pickup was missed again" ].

(** Two comments, both scored positive. *)
Definition two_positive_rows : list RawRow :=
  [ mkRawRow "2025-03-02" "Loved the library program";
    mkRawRow "2025-03-09" "Great street sweeping this week" ].

(** The frame [load_and_process_data] builds from rows whose dates all
    parse; [[]] otherwise. *)
Definition frame (rows : list RawRow) : DataFrame :=
  match load_and_process_data polarity parse_datetime
          (read_csv "sample_feedback.csv" rows) "sample_feedback.csv" with
  | Return (Some df) => df
  | _ => []
  end.

End Stub.

(** ** 2. Visualization: the table behind the stacked bar chart *)

(** Insertion into a list of labels kept in ascending order. *)
Fixpoint insert_sorted (x : string) (l : list string) : list string :=
  match l with
  | [] => [x]
  | y :: l' => if String.leb x y then x :: l else y :: insert_sorted x l'
  end.

(** The distinct values of a column in ascending order, which is how
    [groupby] orders its groups and [unstack] its columns. *)
Definition sorted_labels (col : list string) : list string :=
  fold_right insert_sorted [] (Pandas.unique col).

Section Visualization.

Variable rnd : Q -> Q.

(** [df.groupby('topic')['sentiment'].value_counts(normalize=True)
       .unstack().fillna(0)]: one row per topic, one column per
    sentiment found anywhere in the frame; a cell holds the share of
    that sentiment among the rows of that topic, and 0 where the topic
    has no row of that sentiment. *)
Definition sentiment_by_topic (df : DataFrame)
  : list (string * Series string Q) :=
  let columns := sorted_labels (map sentiment df) in
  map (fun t =>
         let group :=
           map sentiment (filter (fun r => String.eqb (topic r) t) df) in
         (t, map (fun s =>
                    (s, Pandas.get s 0%Q (value_counts_normalize rnd group)))
                 columns))
      (sorted_labels (map topic df)).

End Visualization.

(** ** 4. Main execution

    What a run of [main] shows from outside: the lines it prints and the
    calls it makes to the two steps that only drive the plotting and the
    PDF libraries.  Those two steps are parameters: [main] sees whether
    they return or raise, and the path the second one returns. *)

Inductive event : Type :=
| Printed (line : string)
| CalledCharts (df : DataFrame)
| CalledPdf (df : DataFrame) (findings recommendations : string).

(** A computation with its trace so far. *)
Definition io (A : Type) : Type := (list event * outcome A)%type.

Definition io_ret {A : Type} (a : A) : io A := ([], Return a).

Definition io_bind {A B : Type} (m : io A) (f : A -> io B) : io B :=
  match m with
  | (t, Return a) => let (t', r) := f a in (t ++ t', r)
  | (t, Raise e) => (t, Raise e)
  end.

Definition emit (ev : event) : io unit := ([ev], Return tt).

Definition print (line : string) : io unit := emit (Printed line).

Notation "x <~ m ;; k" := (io_bind m (fun x => k))
  (at level 61, m at next level, right associativity).
Notation "m ;;; k" := (io_bind m (fun _ => k))
  (at level 61, right associativity).

Section Main.

Variable polarity : string -> Q.
Variable parse_datetime : string -> option Timestamp.
Variable read_csv : string -> option (list RawRow).
Variable rnd : Q -> Q.
Variable format_1f : Q -> string.

(** [create_visualizations(df)] and [create_pdf_report(df, findings,
    recommendations)], as [main] sees them. *)
Variable create_visualizations : DataFrame -> outcome unit.
Variable create_pdf_report : DataFrame -> string -> string -> outcome string.

(** [load_and_process_data] together with the line it prints when the
    file is missing. *)
Definition load_and_process_data_io (filepath : string)
  : io (option DataFrame) :=
  (match read_csv filepath with
   | None =>
       [Printed ("ERROR: Data file not found at '" ++ filepath ++ "'.")%string]
   | Some _ => []
   end,
   load_and_process_data polarity parse_datetime read_csv filepath).

Definition main : io unit :=
  print "--- Starting Resident Feedback Analysis Pipeline ---" ;;;
  loaded <~ load_and_process_data_io "sample_feedback.csv" ;;
  match loaded with
  | None => io_ret tt
  | Some df =>
      print "Step 1: Data processed successfully." ;;;
      ([CalledCharts df], create_visualizations df) ;;;
      print "Step 2: Visualizations created." ;;;
      texts <~ ([], generate_executive_summary rnd format_1f df) ;;
      print "Step 3: Insights and recommendations generated." ;;;
      report_path <~ ([CalledPdf df (fst texts) (snd texts)],
                      create_pdf_report df (fst texts) (snd texts)) ;;
      print "Step 4: PDF report compiled successfully." ;;;
      print (nl ++ "--- Pipeline Complete. Open '" ++ report_path
                ++ "' to view the summary. ---")%string
  end.

End Main.

(** * Properties *)

(** ** Substring search *)

Lemma startswith_iff (kw text : string) :
  PyStr.startswith kw text = true <-> exists post, text = (kw ++ post)%string.
Proof.
  revert text; induction kw as [| a kw IH]; intros text; simpl.
  - split; [intros _; now exists text | reflexivity].
  - destruct text as [| b text].
    + split; [discriminate | intros [post H]; discriminate].
    + rewrite andb_true_iff, Ascii.eqb_eq, IH. split.
      * intros [-> [post ->]]. now exists post.
      * intros [post H]. injection H as -> ->. split; [reflexivity | now exists post].
Qed.

Lemma contains_iff (kw text : string) :
  PyStr.contains kw text = true <->
  exists pre post, text = (pre ++ kw ++ post)%string.
Proof.
  induction text as [| c text IH]; simpl.
  - rewrite orb_false_r, startswith_iff. split.
    + intros [post H]. now exists EmptyString, post.
    + intros [[| c pre] [post H]]; [now exists post | discriminate].
  - rewrite orb_true_iff, startswith_iff, IH. split.
    + intros [[post H] | [pre [post H]]].
      * now exists EmptyString, post.
      * exists (String c pre), post. simpl. now rewrite H.
    + intros [[| c' pre] [post H]].
      * left. now exists post.
      * right. simpl in H. injection H as _ H. now exists pre, post.
Qed.

Lemma any_in_iff (kws : list string) (text : string) :
  PyStr.any_in kws text = true <->
  exists kw, In kw kws /\ PyStr.contains kw text = true.
Proof.
  unfold PyStr.any_in. now rewrite existsb_exists.
Qed.

(** ** The classifier as a first match over the rule table *)

Lemma classify_topic_first_match (text : string) :
  classify_topic text =
  match first_match topic_rules (PyStr.lower text) with
  | Some label => label
  | None => default_topic
  end.
Proof.
  unfold classify_topic, topic_rules, first_match.
  repeat match goal with
         | |- context [if ?b then _ else _] => destruct b; [reflexivity |]
         end.
  reflexivity.
Qed.

Lemma first_match_none (rules : list (list string * string)) (text : string) :
  (forall r, In r rules -> PyStr.any_in (fst r) text = false) ->
  first_match rules text = None.
Proof.
  induction rules as [| [kws label] rules IH]; intros H; simpl.
  - reflexivity.
  - pose proof (H (kws, label) (or_introl eq_refl)) as E. simpl in E.
    rewrite E. apply IH. intros r Hr. apply H. now right.
Qed.

Lemma first_match_in (rules : list (list string * string)) (text label : string) :
  first_match rules text = Some label ->
  exists kws, In (kws, label) rules /\ PyStr.any_in kws text = true.
Proof.
  induction rules as [| [kws l] rules IH]; simpl; [discriminate |].
  destruct (PyStr.any_in kws text) eqn:E.
  - intros [= <-]. exists kws. auto.
  - intros H. destruct (IH H) as [kws' [Hin Hm]]. exists kws'. auto.
Qed.

(** The rule at position [i] wins when it matches and none before it
    does. *)
Lemma first_match_at (rules : list (list string * string)) (text : string)
  (i : nat) (r : list string * string) :
  nth_error rules i = Some r ->
  PyStr.any_in (fst r) text = true ->
  (forall j rj, j < i -> nth_error rules j = Some rj ->
                PyStr.any_in (fst rj) text = false) ->
  first_match rules text = Some (snd r).
Proof.
  revert i; induction rules as [| [kws l] rules IH]; intros i Hi Hm Hbefore.
  - destruct i; discriminate.
  - destruct i as [| i]; simpl in *.
    + injection Hi as <-. simpl in Hm. now rewrite Hm.
    + pose proof (Hbefore 0 (kws, l) (Nat.lt_0_succ i) eq_refl) as E.
      simpl in E. rewrite E. apply (IH i Hi Hm). intros j rj Hj Hnth.
      apply (Hbefore (S j) rj); [lia | exact Hnth].
Qed.

(** A matching rule at position [i] bounds the position of the winner. *)
Lemma first_match_bound (rules : list (list string * string)) (text : string)
  (i : nat) (r : list string * string) :
  nth_error rules i = Some r ->
  PyStr.any_in (fst r) text = true ->
  exists j rj, j <= i /\ nth_error rules j = Some rj /\
               first_match rules text = Some (snd rj).
Proof.
  revert i; induction rules as [| [kws l] rules IH]; intros i Hi Hm.
  - destruct i; discriminate.
  - simpl. destruct (PyStr.any_in kws text) eqn:E.
    + exists 0, (kws, l). split; [lia | split; reflexivity].
    + destruct i as [| i]; simpl in Hi.
      * injection Hi as <-. simpl in Hm. congruence.
      * destruct (IH i Hi Hm) as [j [rj [Hj [Hnth Hf]]]].
        exists (S j), rj. split; [lia | split; [exact Hnth | exact Hf]].
Qed.

(** ** C4 *)

(** C4. [classify_topic] is a total function whose value, for every
    text, is one of the eight labels of the pipeline, and it is the
    default 'General Inquiry' when no rule has a keyword in the
    lower-cased text. *)
Theorem classify_topic_total_closed (text : string) :
  topic_labels =
    [ "Parks, Rec & Library"; "Public Works - Sanitation";
      "Public Works - Transportation"; "Community Development";
      "Water Resources"; "Public Safety"; "Code Enforcement";
      "General Inquiry" ] /\
  NoDup topic_labels /\
  In (classify_topic text) topic_labels /\
  ((forall r, In r topic_rules -> PyStr.any_in (fst r) (PyStr.lower text) = false) ->
   classify_topic text = "General Inquiry").
Proof.
  split; [reflexivity |]. split.
  - unfold topic_labels; simpl.
    repeat (constructor; [simpl; intuition discriminate |]). constructor.
  - split.
    + rewrite classify_topic_first_match.
      destruct (first_match topic_rules (PyStr.lower text)) as [label |] eqn:E.
      * apply first_match_in in E. destruct E as [kws [Hin _]].
        unfold topic_labels. apply in_or_app. left.
        change label with (snd (kws, label)). now apply in_map.
      * unfold topic_labels. apply in_or_app. right. now left.
    + intros H. rewrite classify_topic_first_match.
      now rewrite (first_match_none _ _ H).
Qed.

Lemma classify_topic_total_closed_witness :
  classify_topic "" = "General Inquiry" /\
  classify_topic "Thank you for the quick reply" = "General Inquiry".
Proof.
  split.
  - apply (classify_topic_total_closed "").
    intros r Hr; simpl in Hr; decompose [or] Hr; subst; try reflexivity; contradiction.
  - apply (classify_topic_total_closed "Thank you for the quick reply").
    intros r Hr; simpl in Hr; decompose [or] Hr; subst; try reflexivity; contradiction.
Defined.

(** ** C5 *)

Lemma topic_rule_labels_NoDup : NoDup (map snd topic_rules).
Proof.
  simpl. repeat (constructor; [simpl; intuition discriminate |]). constructor.
Qed.

(** Rules at different positions carry different labels. *)
Lemma topic_rule_label_inj (i j : nat) (ri rj : list string * string) :
  nth_error topic_rules i = Some ri ->
  nth_error topic_rules j = Some rj ->
  snd ri = snd rj -> i = j.
Proof.
  intros Hi Hj E.
  assert (Hlen : i < List.length (map snd topic_rules)).
  { rewrite length_map. apply nth_error_Some. congruence. }
  apply (proj1 (NoDup_nth_error _) topic_rule_labels_NoDup i j Hlen).
  rewrite (map_nth_error snd i topic_rules Hi).
  rewrite (map_nth_error snd j topic_rules Hj).
  now rewrite E.
Qed.

(** C5.  Classification is first-match-wins over the ordered
    rule list: a rule that matches the lower-cased text wins when no
    rule declared before it matches, and no rule declared after a
    matching rule ever wins; so a text with both 'park' and 'trash' is
    'Parks, Rec & Library'. *)
Theorem classify_topic_first_match_wins (text : string) :
  (forall (i : nat) (ri : list string * string),
      nth_error topic_rules i = Some ri ->
      PyStr.any_in (fst ri) (PyStr.lower text) = true ->
      ((forall j rj, j < i -> nth_error topic_rules j = Some rj ->
                     PyStr.any_in (fst rj) (PyStr.lower text) = false) ->
       classify_topic text = snd ri) /\
      (forall j rj, i < j -> nth_error topic_rules j = Some rj ->
                    classify_topic text <> snd rj)) /\
  (PyStr.contains "park" (PyStr.lower text) = true ->
   PyStr.contains "trash" (PyStr.lower text) = true ->
   classify_topic text = "Parks, Rec & Library").
Proof.
  split.
  - intros i ri Hi Hm. split.
    + intros Hbefore. rewrite classify_topic_first_match.
      now rewrite (first_match_at _ _ i ri Hi Hm Hbefore).
    + intros j rj Hij Hj E.
      destruct (first_match_bound _ _ i ri Hi Hm) as [k [rk [Hk [Hnth Hf]]]].
      rewrite classify_topic_first_match, Hf in E.
      pose proof (topic_rule_label_inj k j rk rj Hnth Hj E). lia.
  - intros Hpark _. rewrite classify_topic_first_match.
    assert (Hm : PyStr.any_in
                   ["park"; "playground"; "library"; "program"; "community center"]
                   (PyStr.lower text) = true).
    { apply any_in_iff. exists "park". split; [now left | exact Hpark]. }
    unfold topic_rules, first_match. now rewrite Hm.
Qed.

Lemma classify_topic_first_match_wins_witness :
  classify_topic "Trash and potholes on our road" = "Public Works - Sanitation" /\
  classify_topic "Trash and potholes on our road" <> "Public Works - Transportation" /\
  classify_topic "The park is full of trash" = "Parks, Rec & Library".
Proof.
  pose proof (classify_topic_first_match_wins "Trash and potholes on our road") as [H _].
  specialize (H 1 (["trash"; "recycling"; "pickup"; "sweeping"],
                   "Public Works - Sanitation") eq_refl eq_refl).
  destruct H as [Hwin Hlater].
  split; [| split].
  - apply Hwin. intros j rj Hj Hnth.
    destruct j as [| j]; [injection Hnth as <-; reflexivity | lia].
  - apply (Hlater 2 (["pothole"; "road"; "traffic"; "street"; "crosswalk"],
                     "Public Works - Transportation")); [lia | reflexivity].
  - apply (classify_topic_first_match_wins "The park is full of trash");
      reflexivity.
Defined.

(** ** C10 *)

(** The result depends on the text only through which rules have a
    keyword somewhere in it. *)
Lemma first_match_ext (rules : list (list string * string)) (t1 t2 : string) :
  (forall r, In r rules -> PyStr.any_in (fst r) t1 = PyStr.any_in (fst r) t2) ->
  first_match rules t1 = first_match rules t2.
Proof.
  induction rules as [| [kws label] rules IH]; intros H; simpl; [reflexivity |].
  pose proof (H (kws, label) (or_introl eq_refl)) as E. simpl in E. rewrite E.
  destruct (PyStr.any_in kws t2); [reflexivity |].
  apply IH. intros r Hr. apply H. now right.
Qed.

(** C10. A keyword matches wherever it occurs in the lower-cased text,
    whatever characters stand before and after it, so the rule holding
    it matches.  The text is then classified exactly like any text in
    which the same rules match, such as one with the keyword standing
    alone: the rule's label is the result unless a rule declared before
    it matches too. *)
Theorem keyword_inside_longer_word
  (text pre post kw : string) (i : nat) (ri : list string * string) :
  nth_error topic_rules i = Some ri ->
  In kw (fst ri) ->
  PyStr.lower text = (pre ++ kw ++ post)%string ->
  PyStr.contains kw (PyStr.lower text) = true /\
  PyStr.any_in (fst ri) (PyStr.lower text) = true /\
  (forall text',
      (forall r, In r topic_rules ->
                 PyStr.any_in (fst r) (PyStr.lower text') =
                 PyStr.any_in (fst r) (PyStr.lower text)) ->
      classify_topic text' = classify_topic text) /\
  ((forall j rj, j < i -> nth_error topic_rules j = Some rj ->
                 PyStr.any_in (fst rj) (PyStr.lower text) = false) ->
   classify_topic text = snd ri).
Proof.
  intros Hi Hkw Htext.
  assert (Hc : PyStr.contains kw (PyStr.lower text) = true).
  { apply contains_iff. now exists pre, post. }
  assert (Hm : PyStr.any_in (fst ri) (PyStr.lower text) = true).
  { apply any_in_iff. now exists kw. }
  split; [exact Hc | split; [exact Hm | split]].
  - intros text' Hsame. rewrite !classify_topic_first_match.
    now rewrite (first_match_ext topic_rules _ _ Hsame).
  - intros Hbefore. rewrite classify_topic_first_match.
    now rewrite (first_match_at _ _ i ri Hi Hm Hbefore).
Qed.

Lemma keyword_inside_longer_word_witness :
  (classify_topic "Billboard" = "Water Resources" /\
   classify_topic "A bill came" = classify_topic "Billboard") /\
  (classify_topic "programming" = "Parks, Rec & Library" /\
   classify_topic "the program" = classify_topic "programming").
Proof.
  split.
  - destruct (keyword_inside_longer_word "Billboard" "" "board" "bill" 4
                (["bill"; "main break"; "quality"; "sewer"], "Water Resources")
                eq_refl (or_introl eq_refl) eq_refl)
      as [_ [_ [Hsame Hlabel]]].
    split.
    + apply Hlabel. intros j rj Hj Hnth.
      do 4 (destruct j as [| j]; [injection Hnth as <-; reflexivity |]). lia.
    + apply Hsame. intros r Hr. simpl in Hr.
      decompose [or] Hr; subst; try reflexivity; contradiction.
  - destruct (keyword_inside_longer_word "programming" "" "ming" "program" 0
                (["park"; "playground"; "library"; "program"; "community center"],
                 "Parks, Rec & Library")
                eq_refl (or_intror (or_intror (or_intror (or_introl eq_refl))))
                eq_refl)
      as [_ [_ [Hsame Hlabel]]].
    split.
    + apply Hlabel. intros j rj Hj. lia.
    + apply Hsame. intros r Hr. simpl in Hr.
      decompose [or] Hr; subst; try reflexivity; contradiction.
Defined.

(** ** C6 *)

Lemma gtb_iff (x y : Q) : PyFloat.gtb x y = true <-> (y < x)%Q.
Proof.
  unfold PyFloat.gtb. rewrite negb_true_iff. split.
  - intros E. apply Qnot_le_lt. intros H. apply Qle_bool_iff in H. congruence.
  - intros H. destruct (Qle_bool x y) eqn:E; [| reflexivity].
    apply Qle_bool_iff in E. exfalso. apply (Qlt_not_le _ _ H E).
Qed.

Lemma ltb_iff (x y : Q) : PyFloat.ltb x y = true <-> (x < y)%Q.
Proof. unfold PyFloat.ltb. apply (gtb_iff y x). Qed.

(** C6. Whatever polarity the scorer gives, [get_sentiment] returns one
    of the three labels, and which one is fixed by the two thresholds:
    'Positive' exactly when the polarity is above 0.1, 'Negative'
    exactly when it is below -0.1, 'Neutral' exactly when it lies
    between them, the thresholds themselves included. *)
Theorem get_sentiment_thresholds (polarity : string -> Q) (text : string) :
  let p := polarity text in
  let label := get_sentiment polarity text in
  (label = "Positive" <-> (PyFloat.lit_0_1 < p)%Q) /\
  (label = "Negative" <-> (p < - PyFloat.lit_0_1)%Q) /\
  (label = "Neutral" <-> (- PyFloat.lit_0_1 <= p /\ p <= PyFloat.lit_0_1)%Q) /\
  In label ["Positive"; "Negative"; "Neutral"].
Proof.
  intros p label. subst label. unfold get_sentiment. fold p.
  assert (Hpos : (0 < PyFloat.lit_0_1)%Q) by reflexivity.
  destruct (PyFloat.gtb p PyFloat.lit_0_1) eqn:E1.
  - apply gtb_iff in E1.
    repeat split; intros; try discriminate; try lra; simpl; auto.
  - assert (H1 : (p <= PyFloat.lit_0_1)%Q).
    { apply Qnot_lt_le. intros H. apply gtb_iff in H. congruence. }
    destruct (PyFloat.ltb p (- PyFloat.lit_0_1)%Q) eqn:E2.
    + apply ltb_iff in E2.
      repeat split; intros; try discriminate; try lra; simpl; auto.
    + assert (H2 : (- PyFloat.lit_0_1 <= p)%Q).
      { apply Qnot_lt_le. intros H. apply ltb_iff in H. congruence. }
      repeat split; intros; try discriminate; try lra; simpl; auto.
Qed.

Lemma get_sentiment_thresholds_witness :
  get_sentiment (fun _ => (1 # 2)%Q) "any" = "Positive" /\
  get_sentiment (fun _ => (- (1 # 2))%Q) "any" = "Negative" /\
  get_sentiment (fun _ => (1 # 20)%Q) "any" = "Neutral" /\
  get_sentiment (fun _ => 0%Q) "" = "Neutral" /\
  get_sentiment (fun _ => PyFloat.lit_0_1) "any" = "Neutral" /\
  get_sentiment (fun _ => (- PyFloat.lit_0_1)%Q) "any" = "Neutral".
Proof.
  refine (conj _ (conj _ (conj _ (conj _ (conj _ _))))).
  - apply (get_sentiment_thresholds (fun _ => (1 # 2)%Q) "any"). reflexivity.
  - apply (get_sentiment_thresholds (fun _ => (- (1 # 2))%Q) "any"). reflexivity.
  - apply (get_sentiment_thresholds (fun _ => (1 # 20)%Q) "any").
    split; discriminate.
  - apply (get_sentiment_thresholds (fun _ => 0%Q) "").
    split; discriminate.
  - apply (get_sentiment_thresholds (fun _ => PyFloat.lit_0_1) "any").
    split; discriminate.
  - apply (get_sentiment_thresholds (fun _ => (- PyFloat.lit_0_1)%Q) "any").
    split; discriminate.
Defined.

(** ** C8 *)

Section Enrichment.

Variable polarity : string -> Q.
Variable parse_datetime : string -> option Timestamp.
Variable read_cells : string -> option (list CsvRow).


Lemma to_datetime_cells_returns (col : list cell) :
  (forall s, In (Str s) col -> parse_datetime s <> None) ->
  exists stamps,
    to_datetime_cells parse_datetime col = Return stamps /\
    Forall2 (converted parse_datetime) col stamps.
Proof.
  induction col as [| c col IH]; intros H; simpl.
  - exists []. split; [reflexivity | constructor].
  - destruct IH as [stamps [Hret HF]].
    { intros s Hin. apply H. now right. }
    destruct c as [| s].
    + rewrite Hret. exists (None :: stamps).
      split; [reflexivity | constructor; [reflexivity | exact HF]].
    + destruct (parse_datetime s) as [ts |] eqn:Ec.
      * rewrite Hret. exists (Some ts :: stamps).
        split; [reflexivity |]. constructor; [| exact HF].
        split; [exact Ec | discriminate].
      * exfalso. apply (H s); [now left | exact Ec].
Qed.

Lemma apply_classify_topic_returns (col : list cell) :
  (forall c, In c col -> c <> NA) ->
  exists topics,
    apply_classify_topic col = Return topics /\
    Forall2 (fun c t => exists text, c = Str text /\ t = classify_topic text)
            col topics.
Proof.
  induction col as [| c col IH]; intros H; simpl.
  - exists []. split; [reflexivity | constructor].
  - destruct IH as [topics [Hret HF]].
    { intros c' Hin. apply H. now right. }
    destruct c as [| text]; [exfalso; apply (H NA); [now left | reflexivity] |].
    rewrite Hret. exists (classify_topic text :: topics).
    split; [reflexivity |]. constructor; [now exists text | exact HF].
Qed.

Lemma apply_get_sentiment_returns (col : list cell) :
  (forall c, In c col -> c <> NA) ->
  exists sentiments,
    apply_get_sentiment polarity col = Return sentiments /\
    Forall2 (fun c t => exists text, c = Str text /\
                                     t = get_sentiment polarity text)
            col sentiments.
Proof.
  induction col as [| c col IH]; intros H; simpl.
  - exists []. split; [reflexivity | constructor].
  - destruct IH as [sents [Hret HF]].
    { intros c' Hin. apply H. now right. }
    destruct c as [| text]; [exfalso; apply (H NA); [now left | reflexivity] |].
    rewrite Hret. exists (get_sentiment polarity text :: sents).
    split; [reflexivity |]. constructor; [now exists text | exact HF].
Qed.

Lemma apply_classify_topic_missing (col : list cell) :
  In NA col -> apply_classify_topic col = Raise AttributeError.
Proof.
  induction col as [| c col IH]; intros Hin; [destruct Hin |].
  destruct c as [| text]; simpl; [reflexivity |].
  destruct Hin as [Hin | Hin]; [discriminate |]. now rewrite IH.
Qed.

Lemma assemble_enriched (rows : list CsvRow) (stamps : list (option Timestamp))
  (topics sentiments : list string) :
  Forall2 (converted parse_datetime) (map csv_timestamp rows) stamps ->
  Forall2 (fun c t => exists text, c = Str text /\ t = classify_topic text)
          (map csv_feedback_text rows) topics ->
  Forall2 (fun c t => exists text, c = Str text /\
                                   t = get_sentiment polarity text)
          (map csv_feedback_text rows) sentiments ->
  Forall2 (enriched polarity parse_datetime) rows (assemble rows stamps topics sentiments).
Proof.
  revert stamps topics sentiments.
  induction rows as [| r rows IH]; intros stamps topics sentiments H1 H2 H3;
    inversion H1; inversion H2; inversion H3; subst; simpl.
  - constructor.
  - constructor; [| now apply IH].
    unfold enriched. simpl.
    repeat match goal with H : exists _, _ |- _ => destruct H as [? [? ?]] end.
    split; [assumption | split; [reflexivity | split; [| reflexivity]]].
    match goal with
    | H1 : csv_feedback_text r = Str ?a, H2 : csv_feedback_text r = Str ?b |- _ =>
        assert (a = b) by congruence; subst; exists b; auto
    end.
Qed.

Lemma load_na_returns (filepath : string) (rows : list CsvRow) :
  read_cells filepath = Some rows ->
  (forall r s, In r rows -> csv_timestamp r = Str s ->
               parse_datetime s <> None) ->
  (forall r, In r rows -> csv_feedback_text r <> NA) ->
  exists df,
    load_and_process_data_na polarity parse_datetime read_cells filepath =
    Return (Some df) /\
    Forall2 (enriched polarity parse_datetime) rows df.
Proof.
  intros Hfile Hstamps Htexts.
  destruct (to_datetime_cells_returns (map csv_timestamp rows))
    as [stamps [Hs HFs]].
  { intros s Hin. apply in_map_iff in Hin. destruct Hin as [r [Hr Hin]].
    now apply (Hstamps r). }
  assert (Hcol : forall c, In c (map csv_feedback_text rows) -> c <> NA).
  { intros c Hin. apply in_map_iff in Hin. destruct Hin as [r [<- Hin]].
    now apply Htexts. }
  destruct (apply_classify_topic_returns _ Hcol) as [topics [Ht HFt]].
  destruct (apply_get_sentiment_returns _ Hcol) as [sents [Hse HFse]].
  unfold load_and_process_data_na. rewrite Hfile, Hs. simpl.
  rewrite Ht. simpl. rewrite Hse. simpl.
  eexists. split; [reflexivity |]. now apply assemble_enriched.
Qed.


End Enrichment.



(** ** Series that are empty, and what raises on them *)

Lemma insert_desc_not_nil (x : string * nat) (s : Series string nat) :
  Pandas.insert_desc x s <> [].
Proof.
  destruct s as [| y s]; simpl; [discriminate |].
  destruct (snd x <? snd y); discriminate.
Qed.

Lemma value_counts_nil_iff (col : list string) :
  Pandas.value_counts col = [] <-> col = [].
Proof.
  split.
  - destruct col as [| x col]; [reflexivity |].
    unfold Pandas.value_counts. simpl. intros H.
    now apply insert_desc_not_nil in H.
  - intros ->. reflexivity.
Qed.

Lemma index0_raises {K V : Type} (s : Series K V) (e : exn) :
  Pandas.index0 s = Raise e -> e = IndexError /\ s = [].
Proof.
  destruct s as [| [k v] s]; simpl; [intros [= <-]; auto | discriminate].
Qed.

Lemma index0_returns {K V : Type} (s : Series K V) :
  s <> [] -> exists k v, Pandas.index0 s = Return k /\ Pandas.iloc0 s = Return v.
Proof.
  destruct s as [| [k v] s]; [congruence |]. intros _. now exists k, v.
Qed.

Lemma resample_M_size_not_nil (df : DataFrame) :
  df <> [] -> Pandas.resample_M_size df <> [].
Proof.
  destruct df as [| r df]; [congruence |]. intros _.
  unfold Pandas.resample_M_size.
  cbn [map seq]. discriminate.
Qed.

Lemma negative_rows_nil_iff (df : DataFrame) :
  negative_rows df = [] <-> forall r, In r df -> sentiment r <> "Negative".
Proof.
  unfold negative_rows. induction df as [| r df IH]; simpl.
  - split; [intros _ r [] | reflexivity].
  - destruct (String.eqb (sentiment r) "Negative") eqn:E.
    + apply String.eqb_eq in E. split; [discriminate |].
      intros H. exfalso. apply (H r); auto.
    + apply String.eqb_neq in E. rewrite IH. split.
      * intros H r' [<- | Hin]; auto.
      * intros H r' Hin. apply H. now right.
Qed.

(** ** C3 *)

(** C3, as stated, fails: on the empty frame the summary raises, but no
    exception of the pipeline is called EmptyDataset. *)
Lemma empty_dataset_error_counterexample :
  ~ (exists e,
        generate_executive_summary Stub.rnd_exact Stub.format_1f [] = Raise e /\
        exn_name e = "EmptyDataset").
Proof.
  intros [e [H Hname]]. vm_compute in H. injection H as <-. discriminate Hname.
Qed.

(** C3, amended.  On an empty frame [generate_executive_summary]
    returns no report: it raises IndexError, from taking entry 0 of the
    empty topic ranking. *)
Theorem generate_executive_summary_empty
  (rnd : Q -> Q) (format_1f : Q -> string) :
  Pandas.index0 (Pandas.value_counts (map topic [])) = Raise IndexError /\
  generate_executive_summary rnd format_1f [] = Raise IndexError /\
  forall out, generate_executive_summary rnd format_1f [] <> Return out.
Proof.
  repeat split. discriminate.
Qed.

(** ** C1 *)

(** On two rows that are both Positive the summary raises; it returns
    no text, with or without the fallback sentence. *)
Lemma two_positive_rows_no_fallback :
  map sentiment (Stub.frame Stub.two_positive_rows) = ["Positive"; "Positive"] /\
  ~ (exists findings recommendations,
        generate_executive_summary Stub.rnd_exact Stub.format_1f
          (Stub.frame Stub.two_positive_rows)
        = Return (findings, recommendations) /\
        PyStr.contains "no significant negative-sentiment concentration found"
          (findings ++ recommendations) = true).
Proof.
  split; [reflexivity |].
  intros [f [r [H _]]]. vm_compute in H. discriminate H.
Qed.

(** C1 does not hold of the code.  When no row is Negative the
    negative-by-topic ranking is empty and [generate_executive_summary]
    raises IndexError on taking its entry 0, where the absent Positive
    label two lines above is given the default 0; no text is produced.
    Only when some row is Negative does it return the findings and the
    recommendations. *)
Theorem generate_executive_summary_no_negative
  (rnd : Q -> Q) (format_1f : Q -> string) (df : DataFrame) :
  ((forall r, In r df -> sentiment r <> "Negative") ->
   Pandas.value_counts (map topic (negative_rows df)) = [] /\
   generate_executive_summary rnd format_1f df = Raise IndexError) /\
  ((exists r, In r df /\ sentiment r = "Negative") ->
   exists findings recommendations,
     generate_executive_summary rnd format_1f df =
     Return (findings, recommendations)).
Proof.
  split.
  - intros H. apply negative_rows_nil_iff in H.
    split; [now rewrite H |].
    unfold generate_executive_summary. rewrite H.
    destruct (Pandas.index0 (Pandas.value_counts (map topic df))) as [k | e] eqn:E.
    + reflexivity.
    + apply index0_raises in E. destruct E as [-> _]. reflexivity.
  - intros [r [Hin Hneg]].
    assert (Hdf : df <> []) by (intros ->; destruct Hin).
    assert (Hnr : negative_rows df <> []).
    { intros E. rewrite negative_rows_nil_iff in E. now apply (E r). }
    unfold generate_executive_summary.
    destruct (index0_returns (Pandas.value_counts (map topic df)))
      as [k [v [-> _]]].
    { rewrite value_counts_nil_iff. destruct df; [congruence | discriminate]. }
    destruct (index0_returns (Pandas.value_counts (map topic (negative_rows df))))
      as [k' [v' [-> ->]]].
    { rewrite value_counts_nil_iff.
      destruct (negative_rows df); [congruence | discriminate]. }
    pose proof (resample_M_size_not_nil df Hdf) as Hm.
    destruct (Pandas.resample_M_size df) as [| x s]; [congruence |].
    simpl. eauto.
Qed.

Lemma generate_executive_summary_no_negative_witness :
  generate_executive_summary Stub.rnd_exact Stub.format_1f
    (Stub.frame Stub.two_positive_rows) = Raise IndexError /\
  exists findings recommendations,
    generate_executive_summary Stub.rnd_exact Stub.format_1f
      (Stub.frame Stub.three_rows) = Return (findings, recommendations).
Proof.
  split.
  - apply (generate_executive_summary_no_negative Stub.rnd_exact Stub.format_1f
             (Stub.frame Stub.two_positive_rows)).
    intros r Hr. vm_compute in Hr.
    decompose [or] Hr; subst; try discriminate; contradiction.
  - apply (generate_executive_summary_no_negative Stub.rnd_exact Stub.format_1f
             (Stub.frame Stub.three_rows)).
    eexists. split; [left; reflexivity | reflexivity].
Defined.

(** ** [value_counts] *)

Lemma in_filter_neq (x y : string) (l : list string) :
  In y (filter (fun z => negb (String.eqb x z)) l) <-> In y l /\ x <> y.
Proof.
  rewrite filter_In, negb_true_iff. split; intros [H1 H2]; split; auto.
  - now apply String.eqb_neq.
  - now apply String.eqb_neq.
Qed.

Lemma unique_In (k : string) (col : list string) :
  In k (Pandas.unique col) <-> In k col.
Proof.
  induction col as [| x col IH]; simpl; [reflexivity |].
  rewrite in_filter_neq, IH.
  destruct (string_dec x k) as [-> | Hne]; intuition congruence.
Qed.

Lemma unique_NoDup (col : list string) : NoDup (Pandas.unique col).
Proof.
  induction col as [| x col IH]; simpl; constructor.
  - rewrite in_filter_neq. intros [_ H]. now apply H.
  - now apply NoDup_filter.
Qed.

Lemma index_of_head (x : string) (col : list string) : index_of x (x :: col) = 0.
Proof. simpl. now rewrite String.eqb_refl. Qed.

Lemma index_of_tail (x y : string) (col : list string) :
  x <> y -> index_of y (x :: col) = S (index_of y col).
Proof.
  intros H. simpl. destruct (String.eqb y x) eqn:E; [| reflexivity].
  apply String.eqb_eq in E. congruence.
Qed.

Lemma StronglySorted_filter {A : Type} (R : A -> A -> Prop) (f : A -> bool)
  (l : list A) :
  StronglySorted R l -> StronglySorted R (filter f l).
Proof.
  induction 1 as [| a l Hs IH Hall]; simpl; [constructor |].
  destruct (f a); [| exact IH].
  constructor; [exact IH |].
  rewrite Forall_forall in *. intros y Hy. apply filter_In in Hy. now apply Hall.
Qed.

Lemma StronglySorted_weaken {A : Type} (R R' : A -> A -> Prop) (l : list A) :
  (forall a b, In a l -> In b l -> R a b -> R' a b) ->
  StronglySorted R l -> StronglySorted R' l.
Proof.
  intros Himp Hs. induction Hs as [| a l Hs IH Hall]; constructor.
  - apply IH. intros x y Hx Hy. apply Himp; now right.
  - rewrite Forall_forall in *. intros y Hy.
    apply Himp; [now left | now right | now apply Hall].
Qed.

(** The distinct values come in order of first appearance. *)
Lemma unique_in_order (col : list string) :
  StronglySorted (fun a b => index_of a col < index_of b col)
                 (Pandas.unique col).
Proof.
  induction col as [| x col IH]; simpl Pandas.unique; constructor.
  - apply StronglySorted_filter with (f := fun y => negb (String.eqb x y)) in IH.
    revert IH. apply StronglySorted_weaken.
    intros a b Ha Hb Hab.
    apply in_filter_neq in Ha, Hb. destruct Ha as [_ Ha], Hb as [_ Hb].
    rewrite (index_of_tail x a col Ha), (index_of_tail x b col Hb). lia.
  - rewrite Forall_forall. intros y Hy. apply in_filter_neq in Hy.
    destruct Hy as [_ Hy].
    rewrite index_of_head, (index_of_tail x y col Hy). lia.
Qed.

Lemma insert_desc_perm (x : string * nat) (s : Series string nat) :
  Permutation (Pandas.insert_desc x s) (x :: s).
Proof.
  induction s as [| y s IH]; simpl; [reflexivity |].
  destruct (snd x <? snd y); [| reflexivity].
  rewrite IH. apply perm_swap.
Qed.

Lemma sort_values_desc_perm (s : Series string nat) :
  Permutation (Pandas.sort_values_desc s) s.
Proof.
  induction s as [| x s IH]; simpl; [reflexivity |].
  rewrite insert_desc_perm. now constructor.
Qed.

Section StableSort.

(** Position of an index label in the unsorted series. *)
Variable pos : string -> nat.

Lemma insert_desc_sorted (x : string * nat) (s : Series string nat) :
  StronglySorted (ranks_before pos) s ->
  Forall (fun y => pos (fst x) < pos (fst y)) s ->
  StronglySorted (ranks_before pos) (Pandas.insert_desc x s).
Proof.
  intros Hs. induction Hs as [| y s Hs IH Hall]; intros Hpos; simpl.
  - repeat constructor.
  - inversion Hpos as [| ? ? Hy Hrest]; subst.
    destruct (snd x <? snd y) eqn:E.
    + apply Nat.ltb_lt in E. constructor; [now apply IH |].
      rewrite Forall_forall in *. intros z Hz.
      apply (Permutation_in _ (insert_desc_perm x s)) in Hz.
      destruct Hz as [<- | Hz]; [now left | now apply Hall].
    + apply Nat.ltb_ge in E. constructor; [now constructor |].
      constructor.
      * unfold ranks_before. destruct (Nat.eq_dec (snd x) (snd y)); [right | left]; auto; lia.
      * rewrite Forall_forall in *. intros z Hz.
        specialize (Hall z Hz). specialize (Hrest z Hz).
        unfold ranks_before in *.
        destruct (Nat.eq_dec (snd x) (snd z)); [right | left]; auto; lia.
Qed.

Lemma sort_values_desc_sorted (s : Series string nat) :
  StronglySorted (fun a b => pos (fst a) < pos (fst b)) s ->
  StronglySorted (ranks_before pos) (Pandas.sort_values_desc s).
Proof.
  induction 1 as [| x s Hs IH Hall]; simpl; [constructor |].
  apply insert_desc_sorted; [exact IH |].
  rewrite Forall_forall in *. intros y Hy. apply Hall.
  now apply (Permutation_in _ (sort_values_desc_perm s)).
Qed.

End StableSort.

Lemma value_counts_In (col : list string) (k : string) (c : nat) :
  In (k, c) (Pandas.value_counts col) <-> In k col /\ c = Pandas.count k col.
Proof.
  unfold Pandas.value_counts. split.
  - intros H. apply (Permutation_in _ (sort_values_desc_perm _)) in H.
    apply in_map_iff in H. destruct H as [k' [[= -> <-] Hin]].
    now rewrite <- unique_In.
  - intros [Hin ->].
    apply (Permutation_in _ (Permutation_sym (sort_values_desc_perm _))).
    apply in_map_iff. exists k. now rewrite unique_In.
Qed.

Lemma value_counts_keys (col : list string) :
  Permutation (map fst (Pandas.value_counts col)) (Pandas.unique col).
Proof.
  unfold Pandas.value_counts. rewrite sort_values_desc_perm, map_map. simpl.
  now rewrite map_id.
Qed.

Lemma value_counts_sorted (col : list string) :
  StronglySorted (ranks_before (fun k => index_of k col))
                 (Pandas.value_counts col).
Proof.
  apply sort_values_desc_sorted.
  pose proof (unique_in_order col) as H.
  induction H as [| x l Hs IH Hall]; simpl; constructor; [exact IH |].
  rewrite Forall_forall in *. intros y Hy.
  apply in_map_iff in Hy. destruct Hy as [k [<- Hk]]. simpl. now apply Hall.
Qed.

Lemma count_pos_iff (k : string) (col : list string) :
  0 < Pandas.count k col <-> In k col.
Proof.
  induction col as [| x col IH]; simpl; [split; [lia | intros []] |].
  destruct (String.eqb k x) eqn:E.
  - apply String.eqb_eq in E. subst x. split; [intros _; now left | lia].
  - apply String.eqb_neq in E. simpl. rewrite IH. intuition congruence.
Qed.

(** ** C2 *)

Lemma insert_ranked_perm (x : nat * (string * nat))
  (s : list (nat * (string * nat))) :
  Permutation (insert_ranked x s) (x :: s).
Proof.
  induction s as [| y s IH]; simpl; [reflexivity |].
  destruct ((snd (snd x) <? snd (snd y))
            || ((snd (snd x) =? snd (snd y)) && (fst y <? fst x)));
    [| reflexivity].
  rewrite IH. apply perm_swap.
Qed.

Lemma sort_ranked_perm (l : list (nat * (string * nat))) :
  Permutation (fold_right insert_ranked [] l) l.
Proof.
  induction l as [| x l IH]; simpl; [reflexivity |].
  rewrite insert_ranked_perm. now constructor.
Qed.

Lemma insert_ranked_sorted (x : nat * (string * nat))
  (s : list (nat * (string * nat))) :
  StronglySorted (fun a b => snd (snd b) <= snd (snd a)) s ->
  StronglySorted (fun a b => snd (snd b) <= snd (snd a)) (insert_ranked x s).
Proof.
  induction 1 as [| y s Hs IH Hall]; simpl.
  - repeat constructor.
  - destruct ((snd (snd x) <? snd (snd y))
              || ((snd (snd x) =? snd (snd y)) && (fst y <? fst x))) eqn:E.
    + assert (Hxy : snd (snd x) <= snd (snd y)).
      { apply orb_true_iff in E. destruct E as [E | E].
        - apply Nat.ltb_lt in E. lia.
        - apply andb_true_iff in E. destruct E as [E _].
          apply Nat.eqb_eq in E. lia. }
      constructor; [exact IH |].
      rewrite Forall_forall in *. intros z Hz.
      apply (Permutation_in _ (insert_ranked_perm x s)) in Hz.
      destruct Hz as [<- | Hz]; [exact Hxy | now apply Hall].
    + apply orb_false_iff in E. destruct E as [E _].
      apply Nat.ltb_ge in E.
      constructor; [now constructor |].
      constructor; [exact E |].
      rewrite Forall_forall in *. intros z Hz. specialize (Hall z Hz). lia.
Qed.

Lemma map_snd_combine {A B : Type} (l1 : list A) (l2 : list B) :
  List.length l1 = List.length l2 -> map snd (combine l1 l2) = l2.
Proof.
  revert l2; induction l1 as [| a l1 IH]; intros [| b l2] H;
    simpl in *; try discriminate; [reflexivity |].
  f_equal. apply IH. now injection H.
Qed.

Lemma sort_values_desc_by_perm (tie : list nat -> nat -> nat)
  (s : Series string nat) :
  Permutation (sort_values_desc_by tie s) s.
Proof.
  unfold sort_values_desc_by.
  rewrite sort_ranked_perm, map_snd_combine; [reflexivity |].
  now rewrite length_map, length_seq.
Qed.

Lemma sort_values_desc_by_sorted (tie : list nat -> nat -> nat)
  (s : Series string nat) :
  StronglySorted (fun a b => snd b <= snd a) (sort_values_desc_by tie s).
Proof.
  unfold sort_values_desc_by.
  generalize (combine (map (tie (map snd s)) (seq 0 (List.length s))) s).
  intros l.
  assert (H : StronglySorted (fun a b => snd (snd b) <= snd (snd a))
                             (fold_right insert_ranked [] l)).
  { induction l as [| x l IH]; simpl; [constructor |].
    now apply insert_ranked_sorted. }
  induction H as [| y r Hs IH Hall]; simpl; constructor; [exact IH |].
  rewrite Forall_forall in *. intros z Hz. apply in_map_iff in Hz.
  destruct Hz as [w [<- Hw]]. now apply Hall.
Qed.

Lemma value_counts_by_In (tie : list nat -> nat -> nat) (col : list string)
  (k : string) (c : nat) :
  In (k, c) (value_counts_by tie col) <-> In k col /\ c = Pandas.count k col.
Proof.
  unfold value_counts_by. split.
  - intros H. apply (Permutation_in _ (sort_values_desc_by_perm tie _)) in H.
    apply in_map_iff in H. destruct H as [k' [[= -> <-] Hin]].
    split; [now apply (proj1 (unique_In _ _)) | reflexivity].
  - intros [Hin ->].
    apply (Permutation_in _
             (Permutation_sym (sort_values_desc_by_perm tie _))).
    apply in_map_iff. exists k. split; [reflexivity |].
    now apply (proj2 (unique_In _ _)).
Qed.

Lemma value_counts_by_keys (tie : list nat -> nat -> nat) (col : list string) :
  Permutation (map fst (value_counts_by tie col)) (Pandas.unique col).
Proof.
  unfold value_counts_by. rewrite sort_values_desc_by_perm, map_map. simpl.
  now rewrite map_id.
Qed.

(** With every rank equal the sort keeps equal counts in their original
    order: it is the ranking the summary above is written with. *)
Lemma value_counts_by_stable (col : list string) :
  value_counts_by (fun _ _ => 0) col = Pandas.value_counts col.
Proof.
  unfold value_counts_by, Pandas.value_counts, sort_values_desc_by,
    Pandas.sort_values_desc.
  generalize (map (fun k => (k, Pandas.count k col)) (Pandas.unique col)).
  intros s.
  assert (Hc : forall a, combine (map (fun _ : nat => 0) (seq a (List.length s))) s
                         = map (fun e => (0, e)) s).
  { induction s as [| e s IH]; intros a; simpl; [reflexivity |].
    now rewrite IH. }
  rewrite Hc. clear Hc.
  assert (Hi : forall x l,
             insert_ranked (0, x) (map (fun e => (0, e)) l)
             = map (fun e => (0, e)) (Pandas.insert_desc x l)).
  { intros x l. induction l as [| y l IH]; simpl; [reflexivity |].
    rewrite andb_false_r, orb_false_r.
    destruct (snd x <? snd y); simpl; [now rewrite IH | reflexivity]. }
  assert (Hf : fold_right insert_ranked [] (map (fun e => (0, e)) s)
               = map (fun e => (0, e)) (fold_right Pandas.insert_desc [] s)).
  { induction s as [| e s IH]; simpl; [reflexivity |].
    now rewrite IH, Hi. }
  rewrite Hf, map_map. simpl. apply map_id.
Qed.

(** Two distinct labels, once each: which comes first is the sort's
    choice, and the choice is the same whatever the labels are. *)
Lemma value_counts_by_pair (tie : list nat -> nat -> nat) (a b : string) :
  a <> b ->
  value_counts_by tie [a; b]
  = if tie [1; 1] 1 <? tie [1; 1] 0 then [(b, 1); (a, 1)]
    else [(a, 1); (b, 1)].
Proof.
  intros Hab.
  assert (Eab : String.eqb a b = false) by now apply String.eqb_neq.
  assert (Eba : String.eqb b a = false)
    by (apply String.eqb_neq; congruence).
  unfold value_counts_by, sort_values_desc_by. simpl.
  rewrite Eab, String.eqb_refl. simpl.
  rewrite Eba, String.eqb_refl. simpl.
  now destruct (tie [1; 1] 1 <? tie [1; 1] 0).
Qed.

(** C2, as stated, fails: the sort that ranks the topics sees their
    counts, not their labels, so it treats two topics with one comment
    each the same way in whichever order the comments come; whatever it
    does with equal counts, in one of these two frames the topic it
    puts first is Sanitation and not the earlier declared Parks. *)
Lemma declaration_order_tie_break_counterexample :
  ~ (exists tie : list nat -> nat -> nat,
        forall rows,
          In rows [Stub.trash_then_park; Stub.park_then_trash] ->
          forall t t',
            most_common_topic tie (Stub.frame rows) = Return t ->
            In t' (map topic (Stub.frame rows)) ->
            Pandas.count t' (map topic (Stub.frame rows))
            = Pandas.count t (map topic (Stub.frame rows)) ->
            declaration_index t <= declaration_index t').
Proof.
  intros [tie H].
  assert (Ha : map topic (Stub.frame Stub.trash_then_park)
               = ["Public Works - Sanitation"; "Parks, Rec & Library"])
    by reflexivity.
  assert (Hb : map topic (Stub.frame Stub.park_then_trash)
               = ["Parks, Rec & Library"; "Public Works - Sanitation"])
    by reflexivity.
  pose proof (H Stub.trash_then_park (or_introl eq_refl)
                "Public Works - Sanitation" "Parks, Rec & Library") as H1.
  pose proof (H Stub.park_then_trash (or_intror (or_introl eq_refl))
                "Public Works - Sanitation" "Parks, Rec & Library") as H2.
  unfold most_common_topic, topic_counts in H1, H2.
  rewrite Ha in H1. rewrite Hb in H2.
  rewrite value_counts_by_pair in H1, H2 by discriminate.
  destruct (tie [1; 1] 1 <? tie [1; 1] 0).
  - assert (Hle : declaration_index "Public Works - Sanitation"
                  <= declaration_index "Parks, Rec & Library").
    { apply H2; [reflexivity | simpl; auto | reflexivity]. }
    vm_compute in Hle. lia.
  - assert (Hle : declaration_index "Public Works - Sanitation"
                  <= declaration_index "Parks, Rec & Library").
    { apply H1; [reflexivity | simpl; auto | reflexivity]. }
    vm_compute in Hle. lia.
Qed.

(** C2, amended.  The topic ranking lists every topic of the frame once
    with its number of rows, larger counts first; the order among
    topics with equal counts is whatever the sort gives them and is not
    bound to the declaration order of the rules; on a non-empty frame
    the most common topic is a topic with the largest count. *)
Theorem topic_ranking_order (tie : list nat -> nat -> nat) (df : DataFrame) :
  let col := map topic df in
  let ranking := topic_counts tie df in
  (forall t c, In (t, c) ranking <-> In t col /\ c = Pandas.count t col) /\
  NoDup (map fst ranking) /\
  StronglySorted (fun a b => snd b <= snd a) ranking /\
  (df <> [] ->
   exists t,
     most_common_topic tie df = Return t /\ In t col /\
     forall t', Pandas.count t' col <= Pandas.count t col).
Proof.
  intros col ranking.
  assert (Hin : forall t c, In (t, c) ranking <->
                            In t col /\ c = Pandas.count t col).
  { intros t c. apply value_counts_by_In. }
  assert (Hsorted : StronglySorted (fun a b => snd b <= snd a) ranking).
  { apply sort_values_desc_by_sorted. }
  split; [exact Hin | split; [| split; [exact Hsorted |]]].
  - apply (Permutation_NoDup (Permutation_sym (value_counts_by_keys tie col))).
    apply unique_NoDup.
  - intros Hdf. unfold most_common_topic. fold ranking.
    assert (Hne : ranking <> []).
    { intros E. destruct df as [| r df']; [congruence |].
      assert (Hr : In (topic r, Pandas.count (topic r) col) ranking).
      { apply Hin. split; [now left | reflexivity]. }
      rewrite E in Hr. destruct Hr. }
    destruct ranking as [| [t c] rest] eqn:Er; [congruence |].
    exists t. split; [reflexivity |].
    destruct (proj1 (Hin t c) (or_introl eq_refl)) as [Ht Hc].
    split; [exact Ht |]. intros t'.
    destruct (Nat.eq_dec (Pandas.count t' col) 0) as [E | E]; [lia |].
    assert (Ht' : In t' col) by (apply (proj1 (count_pos_iff _ _)); lia).
    destruct (proj2 (Hin t' _) (conj Ht' eq_refl)) as [[= _ <-] | Hrest];
      [lia |].
    inversion Hsorted as [| ? ? _ Hall]; subst.
    rewrite Forall_forall in Hall. specialize (Hall _ Hrest).
    simpl in Hall. lia.
Qed.

Lemma topic_ranking_order_witness :
  exists t,
    most_common_topic (fun _ _ => 0) (Stub.frame Stub.three_rows) = Return t /\
    In t (map topic (Stub.frame Stub.three_rows)) /\
    forall t', Pandas.count t' (map topic (Stub.frame Stub.three_rows))
               <= Pandas.count t (map topic (Stub.frame Stub.three_rows)).
Proof.
  apply (topic_ranking_order (fun _ _ => 0) (Stub.frame Stub.three_rows)).
  discriminate.
Defined.

(** ** Monthly volume and its first maximum *)

Local Open Scope Z_scope.

Lemma fold_min_le (b : Z) (bs : list Z) (x : Z) :
  In x (b :: bs) -> fold_right Z.min b bs <= x.
Proof.
  induction bs as [| y bs IH]; simpl.
  - intros [-> | []]. lia.
  - intros [-> | [-> | H]].
    + assert (fold_right Z.min x bs <= x) by (apply IH; now left). lia.
    + lia.
    + assert (fold_right Z.min b bs <= x) by (apply IH; now right). lia.
Qed.

Lemma fold_max_ge (b : Z) (bs : list Z) (x : Z) :
  In x (b :: bs) -> x <= fold_right Z.max b bs.
Proof.
  induction bs as [| y bs IH]; simpl.
  - intros [-> | []]. lia.
  - intros [-> | [-> | H]].
    + assert (x <= fold_right Z.max x bs) by (apply IH; now left). lia.
    + lia.
    + assert (x <= fold_right Z.max b bs) by (apply IH; now right). lia.
Qed.

Lemma bucket_size_pos (m : Z) (df : DataFrame) :
  (0 < Pandas.bucket_size m df)%nat <->
  exists r, In r df /\ to_period_M (timestamp r) = m.
Proof.
  unfold Pandas.bucket_size. induction df as [| r df IH]; simpl.
  - split; [lia | intros [r [[] _]]].
  - destruct (to_period_M (timestamp r) =? m) eqn:E.
    + apply Z.eqb_eq in E. simpl. split; [| lia].
      intros _. exists r. auto.
    + apply Z.eqb_neq in E. rewrite IH. split.
      * intros [r' [Hin Hb]]. exists r'. auto.
      * intros [r' [[<- | Hin] Hb]]; [congruence | now exists r'].
Qed.




(** ** C7 *)









Local Close Scope Z_scope.

(** ** Counts add up to the number of rows *)

Lemma sum_indicator (x : string) (u : list string) :
  NoDup u -> In x u ->
  fold_right Nat.add 0 (map (fun k => if String.eqb k x then 1 else 0) u) = 1.
Proof.
  induction 1 as [| y u Hy Hnd IH]; intros Hin; [destruct Hin |].
  simpl. destruct (String.eqb y x) eqn:E.
  - apply String.eqb_eq in E. subst y.
    assert (H0 : fold_right Nat.add 0
                   (map (fun k => if String.eqb k x then 1 else 0) u) = 0).
    { clear IH Hnd Hin. induction u as [| z u IHu]; [reflexivity |].
      simpl. destruct (String.eqb z x) eqn:Ez.
      - apply String.eqb_eq in Ez. subst z. exfalso. apply Hy. now left.
      - apply IHu. intros H. apply Hy. now right. }
    now rewrite H0.
  - apply String.eqb_neq in E. destruct Hin as [-> | Hin]; [congruence |].
    now apply IH.
Qed.

Lemma sum_pointwise (f g : string -> nat) (u : list string) :
  fold_right Nat.add 0 (map (fun k => f k + g k) u) =
  fold_right Nat.add 0 (map f u) + fold_right Nat.add 0 (map g u).
Proof.
  induction u as [| y u IH]; simpl; lia.
Qed.

Lemma sum_counts (u col : list string) :
  NoDup u -> (forall k, In k col -> In k u) ->
  fold_right Nat.add 0 (map (fun k => Pandas.count k col) u) = List.length col.
Proof.
  intros Hnd. induction col as [| x col IH]; intros Hall.
  - simpl. clear Hnd Hall.
    induction u as [| y u IHu]; [reflexivity | exact IHu].
  - simpl Pandas.count. simpl List.length.
    rewrite (sum_pointwise (fun k => if String.eqb k x then 1 else 0)
                           (fun k => Pandas.count k col)).
    rewrite (sum_indicator x u Hnd) by (apply Hall; now left).
    rewrite IH by (intros k Hk; apply Hall; now right).
    reflexivity.
Qed.

Lemma value_counts_total (col : list string) :
  fold_right Nat.add 0 (map snd (Pandas.value_counts col)) = List.length col.
Proof.
  rewrite <- (sum_counts (Pandas.unique col) col (unique_NoDup col))
    by (intros k; apply unique_In).
  unfold Pandas.value_counts.
  assert (P : Permutation
                (map snd (Pandas.sort_values_desc
                            (map (fun k => (k, Pandas.count k col))
                                 (Pandas.unique col))))
                (map (fun k => Pandas.count k col) (Pandas.unique col))).
  { rewrite sort_values_desc_perm, map_map. reflexivity. }
  revert P. generalize (map (fun k => Pandas.count k col) (Pandas.unique col)).
  generalize (map snd (Pandas.sort_values_desc
                         (map (fun k => (k, Pandas.count k col))
                              (Pandas.unique col)))).
  induction 1; simpl; lia.
Qed.

(** ** Rounded proportions *)

Local Open Scope Q_scope.

Lemma qsum_fractions (t : Q) (cs : list nat) :
  PyFloat.qsum (map (fun c => inject_Z (Z.of_nat c) / t) cs) ==
  inject_Z (Z.of_nat (fold_right Nat.add 0%nat cs)) / t.
Proof.
  induction cs as [| c cs IH]; simpl PyFloat.qsum; simpl fold_right.
  - unfold Qdiv. ring.
  - rewrite IH, Nat2Z.inj_add, inject_Z_plus. unfold Qdiv. ring.
Qed.

Lemma qsum_rounded (rnd : Q -> Q) (xs : list Q) :
  PyFloat.rounds rnd ->
  Forall (fun x => 0 <= x) xs ->
  - (PyFloat.eps * PyFloat.qsum xs) <=
    PyFloat.qsum (map rnd xs) - PyFloat.qsum xs /\
  PyFloat.qsum (map rnd xs) - PyFloat.qsum xs <=
    PyFloat.eps * PyFloat.qsum xs.
Proof.
  intros Hrnd. induction 1 as [| x xs Hx Hxs IH]; simpl.
  - unfold PyFloat.eps. split; lra.
  - pose proof (Hrnd x) as Hr. apply Qabs_Qle_condition in Hr.
    rewrite (Qabs_pos x Hx) in Hr.
    unfold PyFloat.eps in *. destruct Hr, IH. split; lra.
Qed.

Lemma fraction_nonneg (c t : nat) :
  0 <= inject_Z (Z.of_nat c) / inject_Z (Z.of_nat t).
Proof.
  unfold Qdiv. apply Qmult_le_0_compat.
  - change 0 with (inject_Z 0). rewrite <- Zle_Qle. lia.
  - apply Qinv_le_0_compat. change 0 with (inject_Z 0). rewrite <- Zle_Qle. lia.
Qed.

Lemma rnd_up_rounds : PyFloat.rounds Stub.rnd_up.
Proof.
  intros x. unfold Stub.rnd_up.
  assert (E : x * (1 + PyFloat.eps) - x == PyFloat.eps * x) by ring.
  rewrite E, Qabs_Qmult. apply Qle_refl.
Qed.

(** ** C9 *)

(** C9. With float division rounding to within one unit roundoff, the
    proportions that [value_counts(normalize=True)] gives for the
    sentiment column of a non-empty frame add up to 1 within that unit
    roundoff, hence within 1e-9. *)
Theorem sentiment_proportions_sum (rnd : Q -> Q) (df : DataFrame) :
  PyFloat.rounds rnd ->
  df <> [] ->
  let proportions := value_counts_normalize rnd (map sentiment df) in
  Qabs (PyFloat.qsum (map snd proportions) - 1) <= PyFloat.eps /\
  Qabs (PyFloat.qsum (map snd proportions) - 1) <= 1 # 1000000000.
Proof.
  intros Hrnd Hdf proportions.
  assert (Hbound : Qabs (PyFloat.qsum (map snd proportions) - 1) <= PyFloat.eps).
  { subst proportions. unfold value_counts_normalize.
    rewrite value_counts_total, length_map.
    set (t := inject_Z (Z.of_nat (List.length df))).
    set (counts := Pandas.value_counts (map sentiment df)).
    assert (Ht : ~ t == 0).
    { unfold t. destruct df as [| r df']; [congruence |].
      simpl List.length. unfold Qeq, inject_Z. simpl Qnum. simpl Qden. lia. }
    assert (Emap : map snd
                     (map (fun '(k, c) => (k, rnd (inject_Z (Z.of_nat c) / t)))
                          counts)
                   = map rnd (map (fun c => inject_Z (Z.of_nat c) / t)
                                  (map snd counts))).
    { rewrite !map_map. apply map_ext. now intros [k c]. }
    rewrite Emap.
    set (xs := map (fun c => inject_Z (Z.of_nat c) / t) (map snd counts)).
    assert (Hxs : Forall (fun x => 0 <= x) xs).
    { unfold xs. rewrite Forall_forall. intros x Hx.
      apply in_map_iff in Hx. destruct Hx as [c [<- _]].
      apply fraction_nonneg. }
    assert (Hone : PyFloat.qsum xs == 1).
    { unfold xs. rewrite qsum_fractions. unfold counts.
      rewrite value_counts_total, length_map. fold t.
      unfold Qdiv. now apply Qmult_inv_r. }
    destruct (qsum_rounded rnd xs Hrnd Hxs) as [Hlo Hhi].
    rewrite Hone in Hlo, Hhi.
    apply Qabs_Qle_condition. unfold PyFloat.eps in *. split; lra. }
  split; [exact Hbound |].
  apply (Qle_trans _ _ _ Hbound). unfold PyFloat.eps. discriminate.
Qed.

Lemma sentiment_proportions_sum_witness :
  Qabs (PyFloat.qsum
          (map snd (value_counts_normalize Stub.rnd_up
                      (map sentiment (Stub.frame Stub.three_rows)))) - 1)
  <= 1 # 1000000000.
Proof.
  apply (sentiment_proportions_sum Stub.rnd_up (Stub.frame Stub.three_rows)).
  - exact rnd_up_rounds.
  - discriminate.
Defined.

Local Close Scope Q_scope.

(** * Further properties of the pipeline *)

(** ** The classifier *)

Lemma str_app_assoc (a b c : string) :
  ((a ++ b) ++ c = a ++ (b ++ c))%string.
Proof.
  induction a as [| x a IH]; simpl; [reflexivity | now rewrite IH].
Qed.

Lemma lower_app (a b : string) :
  PyStr.lower (a ++ b) = (PyStr.lower a ++ PyStr.lower b)%string.
Proof.
  induction a as [| c a IH]; simpl; [reflexivity | now rewrite IH].
Qed.

(** A keyword found in a text is found in every text around it. *)
Lemma contains_context (kw text pre post : string) :
  PyStr.contains kw text = true ->
  PyStr.contains kw (pre ++ text ++ post) = true.
Proof.
  rewrite !contains_iff. intros [a [b ->]].
  exists (pre ++ a)%string, (b ++ post)%string.
  now rewrite !str_app_assoc.
Qed.

Lemma any_in_context (kws : list string) (text pre post : string) :
  PyStr.any_in kws text = true ->
  PyStr.any_in kws (pre ++ text ++ post) = true.
Proof.
  rewrite !any_in_iff. intros [kw [Hin Hc]].
  exists kw. split; [exact Hin | now apply contains_context].
Qed.

(** What [first_match] returns is the label of the first matching rule. *)
Lemma first_match_some_inv (rules : list (list string * string))
  (text label : string) :
  first_match rules text = Some label ->
  exists i r,
    nth_error rules i = Some r /\ snd r = label /\
    PyStr.any_in (fst r) text = true /\
    forall j rj, j < i -> nth_error rules j = Some rj ->
                 PyStr.any_in (fst rj) text = false.
Proof.
  induction rules as [| [kws l] rules IH]; simpl; [discriminate |].
  destruct (PyStr.any_in kws text) eqn:E.
  - intros [= <-]. exists 0, (kws, l). repeat split; auto.
    intros j rj Hj. lia.
  - intros H. destruct (IH H) as [i [r [Hnth [Hl [Hm Hb]]]]].
    exists (S i), r. repeat split; auto.
    intros [| j] rj Hj Hrj; simpl in Hrj.
    + injection Hrj as <-. exact E.
    + apply (Hb j rj); [lia | exact Hrj].
Qed.

Lemma first_match_none_inv (rules : list (list string * string)) (text : string) :
  first_match rules text = None ->
  forall r, In r rules -> PyStr.any_in (fst r) text = false.
Proof.
  induction rules as [| [kws l] rules IH]; simpl; [intros _ r [] |].
  destruct (PyStr.any_in kws text) eqn:E; [discriminate |].
  intros H r [<- | Hr]; [exact E | now apply IH].
Qed.

Lemma default_topic_not_a_rule_label (r : list string * string) :
  In r topic_rules -> snd r <> default_topic.
Proof.
  intros Hr. simpl in Hr.
  decompose [or] Hr; subst; try discriminate; contradiction.
Qed.

Lemma declaration_index_rule (i : nat) (ri : list string * string) :
  nth_error topic_rules i = Some ri -> declaration_index (snd ri) = i.
Proof.
  do 7 (destruct i as [| i]; [intros [= <-]; reflexivity |]).
  destruct i; discriminate.
Qed.

(** The label of a text says exactly which rules match it: the label of
    rule [i] means that rule [i] has a keyword in the lower-cased text
    and no rule before it has; 'General Inquiry' means that no rule has
    one. *)
Theorem classify_topic_characterised (text : string) :
  (forall i ri,
      nth_error topic_rules i = Some ri ->
      (classify_topic text = snd ri <->
       PyStr.any_in (fst ri) (PyStr.lower text) = true /\
       forall j rj, j < i -> nth_error topic_rules j = Some rj ->
                    PyStr.any_in (fst rj) (PyStr.lower text) = false)) /\
  (classify_topic text = "General Inquiry" <->
   forall r, In r topic_rules ->
             PyStr.any_in (fst r) (PyStr.lower text) = false).
Proof.
  rewrite classify_topic_first_match. split.
  - intros i ri Hi. split.
    + destruct (first_match topic_rules (PyStr.lower text)) as [label |] eqn:E.
      * intros ->.
        destruct (first_match_some_inv _ _ _ E) as [k [rk [Hk [Hl [Hm Hb]]]]].
        assert (k = i) by (apply (topic_rule_label_inj k i rk ri); auto).
        subst k. assert (rk = ri) by congruence. subst rk. auto.
      * intros H. exfalso.
        apply (default_topic_not_a_rule_label ri); [| now symmetry].
        now apply (nth_error_In _ i).
    + intros [Hm Hb]. now rewrite (first_match_at _ _ i ri Hi Hm Hb).
  - split.
    + destruct (first_match topic_rules (PyStr.lower text)) as [label |] eqn:E.
      * intros ->. exfalso.
        destruct (first_match_some_inv _ _ _ E) as [k [rk [Hk [Hl _]]]].
        apply (default_topic_not_a_rule_label rk); [| exact Hl].
        now apply (nth_error_In _ k).
      * intros _. now apply first_match_none_inv.
    + intros H. now rewrite (first_match_none _ _ H).
Qed.

Lemma classify_topic_characterised_witness :
  PyStr.any_in ["trash"; "recycling"; "pickup"; "sweeping"]
    (PyStr.lower "Recycling bins on our street") = true /\
  (forall r, In r topic_rules ->
             PyStr.any_in (fst r) (PyStr.lower "Thanks for the update") = false).
Proof.
  destruct (classify_topic_characterised "Recycling bins on our street")
    as [Hrule _].
  destruct (classify_topic_characterised "Thanks for the update")
    as [_ Hdefault].
  split.
  - apply (Hrule 1 (["trash"; "recycling"; "pickup"; "sweeping"],
                    "Public Works - Sanitation") eq_refl).
    reflexivity.
  - apply Hdefault. reflexivity.
Defined.

(** Every keyword of the table, given alone as the text, gets the label
    of its own rule (no keyword is taken by an earlier rule), so each of
    the eight labels is the result for some text. *)
Theorem every_keyword_reaches_its_label :
  (forall kws label kw,
      In (kws, label) topic_rules -> In kw kws -> classify_topic kw = label) /\
  (forall label, In label topic_labels ->
                 exists text, classify_topic text = label).
Proof.
  assert (H : forall kws label kw,
             In (kws, label) topic_rules -> In kw kws ->
             classify_topic kw = label).
  { intros kws label kw Hr Hkw. simpl in Hr.
    decompose [or] Hr; clear Hr; try contradiction;
      match goal with E : (_, _) = (_, _) |- _ => injection E as <- <- end;
      simpl in Hkw; decompose [or] Hkw; subst; try reflexivity; contradiction. }
  split; [exact H |].
  intros label Hl. unfold topic_labels in Hl. apply in_app_or in Hl.
  destruct Hl as [Hl | [<- | []]].
  - apply in_map_iff in Hl. destruct Hl as [[kws l] [<- Hr]].
    destruct kws as [| kw kws].
    + exfalso. simpl in Hr.
      decompose [or] Hr; try discriminate; contradiction.
    + exists kw. apply (H (kw :: kws) l kw Hr). now left.
  - now exists "".
Qed.

Lemma every_keyword_reaches_its_label_witness :
  classify_topic "main break" = "Water Resources" /\
  exists text, classify_topic text = "Code Enforcement".
Proof.
  destruct every_keyword_reaches_its_label as [Hkw Hlabel].
  split.
  - apply (Hkw ["bill"; "main break"; "quality"; "sewer"]); simpl; auto 10.
  - apply Hlabel. unfold topic_labels. simpl. auto 10.
Defined.

(** Text added before or after a comment can move it to a rule declared
    earlier, never to a later one. *)
Theorem classify_topic_context_never_demotes (text pre post : string) :
  declaration_index (classify_topic (pre ++ text ++ post))
  <= declaration_index (classify_topic text).
Proof.
  rewrite !classify_topic_first_match.
  destruct (first_match topic_rules (PyStr.lower text)) as [label |] eqn:E.
  - destruct (first_match_some_inv _ _ _ E) as [i [ri [Hi [<- [Hm _]]]]].
    assert (Hm' : PyStr.any_in (fst ri)
                    (PyStr.lower (pre ++ text ++ post)) = true).
    { rewrite !lower_app. now apply any_in_context. }
    destruct (first_match_bound _ _ i ri Hi Hm') as [k [rk [Hk [Hnth ->]]]].
    now rewrite (declaration_index_rule k rk Hnth),
                (declaration_index_rule i ri Hi).
  - destruct (first_match topic_rules (PyStr.lower (pre ++ text ++ post)))
      as [label |] eqn:E'.
    + destruct (first_match_some_inv _ _ _ E') as [k [rk [Hk [<- _]]]].
      rewrite (declaration_index_rule k rk Hk).
      assert (k < 7).
      { change 7 with (List.length topic_rules). apply nth_error_Some. congruence. }
      change (declaration_index default_topic) with 7. lia.
    + reflexivity.
Qed.

(** ** Sentiment labels *)

Lemma get_sentiment_cases (polarity : string -> Q) (text : string) :
  ((PyFloat.lit_0_1 < polarity text)%Q /\
   get_sentiment polarity text = "Positive") \/
  ((polarity text < - PyFloat.lit_0_1)%Q /\
   get_sentiment polarity text = "Negative") \/
  ((- PyFloat.lit_0_1 <= polarity text <= PyFloat.lit_0_1)%Q /\
   get_sentiment polarity text = "Neutral").
Proof.
  unfold get_sentiment.
  destruct (PyFloat.gtb (polarity text) PyFloat.lit_0_1) eqn:E1.
  - left. split; [now apply gtb_iff | reflexivity].
  - assert (H1 : (polarity text <= PyFloat.lit_0_1)%Q).
    { apply Qnot_lt_le. intros H. apply gtb_iff in H. congruence. }
    destruct (PyFloat.ltb (polarity text) (- PyFloat.lit_0_1)%Q) eqn:E2.
    + right. left. split; [now apply ltb_iff | reflexivity].
    + right. right. split; [| reflexivity]. split; [| exact H1].
      apply Qnot_lt_le. intros H. apply ltb_iff in H. congruence.
Qed.

(** A comment scored at least as high as another never gets a lower
    label: if the lower-scored one is Positive so is the other, and
    if the higher-scored one is Negative so is the other. *)
Theorem get_sentiment_monotone (polarity : string -> Q) (t1 t2 : string) :
  (polarity t1 <= polarity t2)%Q ->
  (get_sentiment polarity t1 = "Positive" ->
   get_sentiment polarity t2 = "Positive") /\
  (get_sentiment polarity t2 = "Negative" ->
   get_sentiment polarity t1 = "Negative").
Proof.
  intros Hle.
  assert (Hpos : (0 < PyFloat.lit_0_1)%Q) by reflexivity.
  destruct (get_sentiment_cases polarity t1) as [[H1 E1] | [[H1 E1] | [[H1 H1'] E1]]];
    destruct (get_sentiment_cases polarity t2) as [[H2 E2] | [[H2 E2] | [[H2 H2'] E2]]];
    rewrite E1, E2; split; intros; try reflexivity; try discriminate;
    exfalso; lra.
Qed.

Lemma get_sentiment_monotone_witness :
  get_sentiment Stub.polarity "Great street sweeping this week" = "Positive".
Proof.
  apply (get_sentiment_monotone Stub.polarity
           "Loved the library program" "Great street sweeping this week").
  - vm_compute. discriminate.
  - reflexivity.
Defined.

(** ** Loading and enrichment *)

Section Loading.

Variable polarity : string -> Q.
Variable parse_datetime : string -> option Timestamp.
Variable read_csv : string -> option (list RawRow).

Lemma to_datetime_first_bad (good : list string) (bad : string)
  (rest : list string) :
  (forall cell, In cell good -> parse_datetime cell <> None) ->
  parse_datetime bad = None ->
  to_datetime parse_datetime (good ++ bad :: rest) = Raise (DateParseError bad).
Proof.
  induction good as [| c good IH]; intros Hgood Hbad; simpl.
  - now rewrite Hbad.
  - destruct (parse_datetime c) eqn:Ec.
    + rewrite IH; [reflexivity | | exact Hbad].
      intros cell Hin. apply Hgood. now right.
    + exfalso. apply (Hgood c); [now left | exact Ec].
Qed.

(** The error raised for a file with unparseable timestamps names the
    first such cell in file order. *)
Theorem load_and_process_data_first_bad_cell
  (filepath : string) (good : list RawRow) (bad : RawRow) (rest : list RawRow) :
  read_csv filepath = Some (good ++ bad :: rest) ->
  (forall r, In r good -> parse_datetime (raw_timestamp r) <> None) ->
  parse_datetime (raw_timestamp bad) = None ->
  load_and_process_data polarity parse_datetime read_csv filepath =
  Raise (DateParseError (raw_timestamp bad)).
Proof.
  intros Hfile Hgood Hbad.
  unfold load_and_process_data. rewrite Hfile, map_app. simpl map.
  rewrite to_datetime_first_bad; [reflexivity | | exact Hbad].
  intros cell Hin. apply in_map_iff in Hin. destruct Hin as [r [<- Hr]].
  now apply Hgood.
Qed.

End Loading.

Lemma load_and_process_data_first_bad_cell_witness :
  load_and_process_data Stub.polarity Stub.parse_datetime
    (Stub.read_csv "sample_feedback.csv" Stub.rows_with_bad_date)
    "sample_feedback.csv" = Raise (DateParseError "next Tuesday").
Proof.
  apply (load_and_process_data_first_bad_cell
           Stub.polarity Stub.parse_datetime
           (Stub.read_csv "sample_feedback.csv" Stub.rows_with_bad_date)
           "sample_feedback.csv"
           [mkRawRow "2025-01-15" "The pothole on Main St is terrible"]
           (mkRawRow "next Tuesday" "Loved the new park playground!")
           [mkRawRow "2025-02-01" "Trash pickup was missed again"]).
  - reflexivity.
  - intros r [<- | []]. discriminate.
  - reflexivity.
Defined.

(** ** Loading files with missing cells *)

Section LoadingMissing.

Variable polarity : string -> Q.
Variable parse_datetime : string -> option Timestamp.
Variable read_cells : string -> option (list CsvRow).

(** When the file is there, every timestamp cell is missing or parses,
    and every text cell is a string, the frame has one row per line of
    the file, in the order of the file; each row carries the parsed
    timestamp, or NaT where the cell was missing, the text unchanged,
    the topic and the sentiment computed from that text, and the month
    of the timestamp, NaT again where there is none. *)
Theorem load_and_process_data_enriches (filepath : string) (rows : list CsvRow) :
  read_cells filepath = Some rows ->
  (forall r s, In r rows -> csv_timestamp r = Str s ->
               parse_datetime s <> None) ->
  (forall r, In r rows -> csv_feedback_text r <> NA) ->
  exists df,
    load_and_process_data_na polarity parse_datetime read_cells filepath =
    Return (Some df) /\
    Forall2 (enriched polarity parse_datetime) rows df.
Proof.
  apply load_na_returns.
Qed.

(** A missing text cell in a file whose timestamps are in order makes
    the loader raise AttributeError, from [text.lower()] on the first
    assignment of a column computed from the text; no frame is
    returned. *)
Theorem load_and_process_data_missing_text (filepath : string)
  (rows : list CsvRow) :
  read_cells filepath = Some rows ->
  (forall r s, In r rows -> csv_timestamp r = Str s ->
               parse_datetime s <> None) ->
  (exists r, In r rows /\ csv_feedback_text r = NA) ->
  load_and_process_data_na polarity parse_datetime read_cells filepath =
  Raise AttributeError.
Proof.
  intros Hfile Hstamps [r [Hin Hna]].
  destruct (to_datetime_cells_returns parse_datetime (map csv_timestamp rows))
    as [stamps [Hs _]].
  { intros s Hs. apply in_map_iff in Hs. destruct Hs as [r' [Hr' Hin']].
    now apply (Hstamps r'). }
  unfold load_and_process_data_na. rewrite Hfile, Hs. simpl.
  rewrite apply_classify_topic_missing; [reflexivity |].
  rewrite <- Hna. now apply in_map.
Qed.

End LoadingMissing.

(** On a file without missing cells the loader of this section and the
    one of the pipeline section return the same frame or raise the
    same error. *)
Lemma load_and_process_data_na_complete
  (polarity : string -> Q) (parse_datetime : string -> option Timestamp)
  (read_csv : string -> option (list RawRow)) (filepath : string) :
  load_and_process_data_na polarity parse_datetime
    (fun f => option_map (map cells_of) (read_csv f)) filepath
  = match load_and_process_data polarity parse_datetime read_csv filepath with
    | Return loaded => Return (option_map (map loaded_of) loaded)
    | Raise e => Raise e
    end.
Proof.
  unfold load_and_process_data_na, load_and_process_data.
  destruct (read_csv filepath) as [rows |]; [| reflexivity]. simpl.
  assert (Hts : forall col,
             to_datetime_cells parse_datetime (map Str col)
             = match to_datetime parse_datetime col with
               | Return l => Return (map Some l)
               | Raise e => Raise e
               end).
  { induction col as [| c col IH]; simpl; [reflexivity |].
    destruct (parse_datetime c); [| reflexivity].
    rewrite IH. now destruct (to_datetime parse_datetime col). }
  assert (Htopic : forall col,
             apply_classify_topic (map Str col)
             = Return (map classify_topic col)).
  { induction col as [| c col IH]; simpl; [reflexivity | now rewrite IH]. }
  assert (Hsent : forall col,
             apply_get_sentiment polarity (map Str col)
             = Return (map (get_sentiment polarity) col)).
  { induction col as [| c col IH]; simpl; [reflexivity | now rewrite IH]. }
  rewrite !map_map. simpl.
  rewrite <- (map_map raw_timestamp Str), Hts.
  destruct (to_datetime parse_datetime (map raw_timestamp rows))
    as [stamps | e]; [| reflexivity].
  simpl. rewrite <- (map_map raw_feedback_text Str), Htopic, Hsent. simpl.
  do 2 f_equal. unfold assemble, add_columns.
  clear Hts Htopic Hsent. revert stamps.
  induction rows as [| r rows IH]; intros [| ts stamps]; simpl;
    try reflexivity.
  now rewrite IH.
Qed.

Lemma load_and_process_data_enriches_witness :
  exists df,
    load_and_process_data_na Stub.polarity Stub.parse_datetime
      (Stub.read_cells "sample_feedback.csv" Stub.rows_with_missing_date)
      "sample_feedback.csv" = Return (Some df) /\
    Forall2 (enriched Stub.polarity Stub.parse_datetime)
            Stub.rows_with_missing_date df.
Proof.
  apply (load_and_process_data_enriches Stub.polarity Stub.parse_datetime
           (Stub.read_cells "sample_feedback.csv" Stub.rows_with_missing_date)
           "sample_feedback.csv" Stub.rows_with_missing_date eq_refl).
  - intros r s Hr Hs. simpl in Hr.
    decompose [or] Hr; subst; simpl in Hs; try discriminate;
      try contradiction.
    injection Hs as <-. discriminate.
  - intros r Hr. simpl in Hr.
    decompose [or] Hr; subst; try discriminate; contradiction.
Defined.

Lemma load_and_process_data_missing_text_witness :
  load_and_process_data_na Stub.polarity Stub.parse_datetime
    (Stub.read_cells "sample_feedback.csv"
       [ mkCsvRow (Str "2025-01-15") (Str "The pothole on Main St is terrible");
         mkCsvRow (Str "2025-01-20") NA ])
    "sample_feedback.csv" = Raise AttributeError.
Proof.
  apply (load_and_process_data_missing_text Stub.polarity Stub.parse_datetime
           (Stub.read_cells "sample_feedback.csv"
              [ mkCsvRow (Str "2025-01-15")
                  (Str "The pothole on Main St is terrible");
                mkCsvRow (Str "2025-01-20") NA ])
           "sample_feedback.csv"
           [ mkCsvRow (Str "2025-01-15")
               (Str "The pothole on Main St is terrible");
             mkCsvRow (Str "2025-01-20") NA ] eq_refl).
  - intros r s Hr Hs. simpl in Hr.
    decompose [or] Hr; subst; simpl in Hs; try discriminate;
      try contradiction; injection Hs as <-; discriminate.
  - eexists. split; [right; left; reflexivity | reflexivity].
Defined.

(** ** Rankings and percentages *)

Lemma count_map_filter_le (f : Row -> bool) (k : string) (df : DataFrame) :
  Pandas.count k (map topic (filter f df)) <= Pandas.count k (map topic df).
Proof.
  induction df as [| r df IH]; simpl; [lia |].
  destruct (f r); simpl; lia.
Qed.

(** [value_counts] lists each distinct value once with a count of at
    least 1, and the counts add up to the number of cells: every row is
    counted under exactly one entry. *)
Theorem value_counts_partitions_rows (col : list string) :
  NoDup (map fst (Pandas.value_counts col)) /\
  (forall k c, In (k, c) (Pandas.value_counts col) -> 1 <= c <= List.length col) /\
  fold_right Nat.add 0 (map snd (Pandas.value_counts col)) = List.length col /\
  List.length (Pandas.value_counts col) <= List.length col.
Proof.
  assert (Htotal := value_counts_total col).
  assert (Hpos : forall k c, In (k, c) (Pandas.value_counts col) -> 1 <= c).
  { intros k c H. apply value_counts_In in H. destruct H as [Hin ->].
    now apply count_pos_iff. }
  split; [| split; [| split; [exact Htotal |]]].
  - apply (Permutation_NoDup (Permutation_sym (value_counts_keys col))).
    apply unique_NoDup.
  - intros k c H. split; [now apply (Hpos k) |].
    rewrite <- Htotal. clear Htotal Hpos. revert H.
    generalize (Pandas.value_counts col). intros s H.
    induction s as [| [k' c'] s IH]; [destruct H |].
    simpl. destruct H as [[= _ ->] | H]; [lia |]. specialize (IH H). lia.
  - rewrite <- Htotal. revert Hpos.
    generalize (Pandas.value_counts col). intros s Hpos.
    induction s as [| [k c] s IH]; simpl; [lia |].
    assert (1 <= c) by (apply (Hpos k); now left).
    assert (List.length s <= fold_right Nat.add 0 (map snd s)).
    { apply IH. intros k' c' H'. apply (Hpos k'). now right. }
    lia.
Qed.

Lemma value_counts_partitions_rows_witness :
  1 <= 2 <= List.length (map sentiment (Stub.frame Stub.three_rows)).
Proof.
  apply (value_counts_partitions_rows
           (map sentiment (Stub.frame Stub.three_rows))) with (k := "Negative").
  vm_compute. auto.
Defined.

(** When some row is Negative, the topic named as the primary area of
    concern and the number printed beside it are the first entry of the
    negative-by-topic ranking: the number is how many Negative rows
    that topic has, it is at least 1, no topic has more Negative rows,
    and the topic has at least that many rows overall. *)
Theorem worst_topic_has_most_negative_rows (df : DataFrame) :
  (exists r, In r df /\ sentiment r = "Negative") ->
  let negative_topics := map topic (negative_rows df) in
  exists worst_topic worst_topic_count,
    Pandas.index0 (Pandas.value_counts negative_topics) = Return worst_topic /\
    Pandas.iloc0 (Pandas.value_counts negative_topics) = Return worst_topic_count /\
    worst_topic_count = Pandas.count worst_topic negative_topics /\
    1 <= worst_topic_count /\
    (forall t, Pandas.count t negative_topics <= worst_topic_count) /\
    worst_topic_count <= Pandas.count worst_topic (map topic df).
Proof.
  intros [r [Hin Hneg]] negative_topics.
  assert (Hne : Pandas.value_counts negative_topics <> []).
  { rewrite value_counts_nil_iff. unfold negative_topics.
    assert (Hnr : negative_rows df <> []).
    { intros E. rewrite negative_rows_nil_iff in E. now apply (E r). }
    destruct (negative_rows df); [congruence | discriminate]. }
  pose proof (value_counts_sorted negative_topics) as Hsorted.
  pose proof (value_counts_In negative_topics) as Hmem.
  destruct (Pandas.value_counts negative_topics) as [| [wt wc] rest];
    [congruence |].
  exists wt, wc. split; [reflexivity | split; [reflexivity |]].
  destruct (proj1 (Hmem wt wc) (or_introl eq_refl)) as [Hwt Hwc].
  split; [exact Hwc | split; [| split]].
  - rewrite Hwc. now apply count_pos_iff.
  - intros t.
    destruct (Nat.eq_dec (Pandas.count t negative_topics) 0) as [E | E];
      [lia |].
    assert (Ht : In t negative_topics) by (apply count_pos_iff; lia).
    destruct (proj2 (Hmem t _) (conj Ht eq_refl)) as [[= _ <-] | Hrest]; [lia |].
    inversion Hsorted as [| ? ? _ Hall]; subst.
    rewrite Forall_forall in Hall. specialize (Hall _ Hrest).
    destruct Hall as [H | [H _]]; simpl in H; lia.
  - rewrite Hwc. unfold negative_topics, negative_rows.
    apply count_map_filter_le.
Qed.

Lemma worst_topic_has_most_negative_rows_witness :
  exists worst_topic worst_topic_count,
    Pandas.index0 (Pandas.value_counts
                     (map topic (negative_rows (Stub.frame Stub.three_rows))))
    = Return worst_topic /\
    Pandas.iloc0 (Pandas.value_counts
                    (map topic (negative_rows (Stub.frame Stub.three_rows))))
    = Return worst_topic_count /\
    1 <= worst_topic_count.
Proof.
  destruct (worst_topic_has_most_negative_rows (Stub.frame Stub.three_rows))
    as [wt [wc [H1 [H2 [_ [H3 _]]]]]].
  - eexists. split; [left; reflexivity | reflexivity].
  - exists wt, wc. auto.
Defined.

Lemma get_present {V : Type} (key : string) (default v : V)
  (s : Series string V) :
  NoDup (map fst s) -> In (key, v) s -> Pandas.get key default s = v.
Proof.
  induction s as [| [k w] s IH]; intros Hnd Hin; [destruct Hin |].
  simpl in *. inversion Hnd as [| ? ? Hk Hnd']; subst.
  destruct (String.eqb key k) eqn:E.
  - apply String.eqb_eq in E. subst k.
    destruct Hin as [[= ->] | Hin]; [reflexivity |].
    exfalso. apply Hk. change key with (fst (key, v)). now apply in_map.
  - apply String.eqb_neq in E.
    destruct Hin as [[= -> _] | Hin]; [congruence | now apply IH].
Qed.

Lemma get_absent {V : Type} (key : string) (default : V) (s : Series string V) :
  ~ In key (map fst s) -> Pandas.get key default s = default.
Proof.
  induction s as [| [k w] s IH]; intros H; [reflexivity |].
  simpl in *. destruct (String.eqb key k) eqn:E.
  - apply String.eqb_eq in E. subst k. exfalso. apply H. now left.
  - apply IH. intros Hin. apply H. now right.
Qed.

(** The percentage printed as overall positive sentiment is 0 when no
    row is Positive (the label is then missing from the series and the
    default is taken); otherwise it is the share of Positive rows among
    all rows, divided and scaled by 100 in float arithmetic. *)
Theorem overall_positive_value (rnd : Q -> Q) (df : DataFrame) :
  let sentiments := map sentiment df in
  let overall_positive :=
    Pandas.get "Positive" 0%Q
      (times_100 rnd (value_counts_normalize rnd sentiments)) in
  ((forall r, In r df -> sentiment r <> "Positive") ->
   overall_positive = 0%Q) /\
  ((exists r, In r df /\ sentiment r = "Positive") ->
   overall_positive =
   rnd (rnd (inject_Z (Z.of_nat (Pandas.count "Positive" sentiments)) /
             inject_Z (Z.of_nat (List.length df))) * 100)%Q).
Proof.
  intros sentiments overall_positive. subst overall_positive.
  unfold times_100, value_counts_normalize.
  rewrite value_counts_total.
  assert (Hlen : List.length sentiments = List.length df) by apply length_map.
  rewrite Hlen, map_map.
  set (cell := fun c : nat =>
                 rnd (rnd (inject_Z (Z.of_nat c) /
                           inject_Z (Z.of_nat (List.length df))) * 100)%Q).
  assert (Emap : map (fun x : string * nat =>
                        let '(k, v) :=
                          let '(k, c) := x in
                          (k, rnd (inject_Z (Z.of_nat c) /
                                   inject_Z (Z.of_nat (List.length df)))%Q) in
                        (k, rnd (v * 100)%Q))
                     (Pandas.value_counts sentiments)
                 = map (fun x => (fst x, cell (snd x)))
                       (Pandas.value_counts sentiments)).
  { apply map_ext. now intros [k c]. }
  rewrite Emap. clear Emap.
  assert (Hkeys : map fst (map (fun x : string * nat => (fst x, cell (snd x)))
                               (Pandas.value_counts sentiments))
                  = map fst (Pandas.value_counts sentiments)).
  { rewrite map_map. reflexivity. }
  assert (Hnd : NoDup (map fst (Pandas.value_counts sentiments))).
  { apply (Permutation_NoDup (Permutation_sym (value_counts_keys sentiments))).
    apply unique_NoDup. }
  split.
  - intros Hnone. apply get_absent. rewrite Hkeys. intros Hin.
    apply (Permutation_in _ (value_counts_keys sentiments)) in Hin.
    apply (proj1 (unique_In _ _)) in Hin. unfold sentiments in Hin.
    apply in_map_iff in Hin. destruct Hin as [r [Hs Hr]].
    now apply (Hnone r).
  - intros [r [Hr Hs]]. apply get_present; [now rewrite Hkeys |].
    apply in_map_iff.
    exists ("Positive", Pandas.count "Positive" sentiments).
    split; [reflexivity |]. apply value_counts_In. split; [| reflexivity].
    unfold sentiments. rewrite <- Hs. now apply in_map.
Qed.

Lemma overall_positive_value_witness :
  Pandas.get "Positive" 0%Q
    (times_100 Stub.rnd_exact
       (value_counts_normalize Stub.rnd_exact
          (map sentiment (Stub.frame Stub.three_rows))))
  = Stub.rnd_exact
      (Stub.rnd_exact
         (inject_Z (Z.of_nat
                      (Pandas.count "Positive"
                         (map sentiment (Stub.frame Stub.three_rows)))) /
          inject_Z (Z.of_nat (List.length (Stub.frame Stub.three_rows)))) * 100)%Q /\
  Pandas.get "Positive" 0%Q
    (times_100 Stub.rnd_exact
       (value_counts_normalize Stub.rnd_exact
          (map sentiment
             (negative_rows (Stub.frame Stub.three_rows))))) = 0%Q.
Proof.
  split.
  - apply (overall_positive_value Stub.rnd_exact (Stub.frame Stub.three_rows)).
    eexists. split; [right; left; reflexivity | reflexivity].
  - apply (overall_positive_value Stub.rnd_exact
             (negative_rows (Stub.frame Stub.three_rows))).
    intros r Hr. vm_compute in Hr.
    decompose [or] Hr; subst; try discriminate; contradiction.
Defined.

(** ** Monthly volume *)

Local Open Scope Z_scope.

Lemma fold_min_in (b : Z) (bs : list Z) : In (fold_right Z.min b bs) (b :: bs).
Proof.
  induction bs as [| y bs IH]; simpl; [now left |].
  destruct (Z.min_spec y (fold_right Z.min b bs)) as [[_ ->] | [_ ->]].
  - right. now left.
  - destruct IH as [IH | IH]; [now left | right; now right].
Qed.

Lemma fold_max_in (b : Z) (bs : list Z) : In (fold_right Z.max b bs) (b :: bs).
Proof.
  induction bs as [| y bs IH]; simpl; [now left |].
  destruct (Z.max_spec y (fold_right Z.max b bs)) as [[_ ->] | [_ ->]].
  - destruct IH as [IH | IH]; [now left | right; now right].
  - right. now left.
Qed.

Lemma bucket_size_cons (m : Z) (r : Row) (df : DataFrame) :
  Pandas.bucket_size m (r :: df) =
  ((if (to_period_M (timestamp r) =? m)%Z then 1 else 0)
   + Pandas.bucket_size m df)%nat.
Proof.
  unfold Pandas.bucket_size. simpl.
  now destruct (to_period_M (timestamp r) =? m).
Qed.

Lemma sum_indicator_Z (b : Z) (keys : list Z) :
  NoDup keys -> In b keys ->
  fold_right Nat.add 0%nat
    (map (fun m => if b =? m then 1%nat else 0%nat) keys) = 1%nat.
Proof.
  induction 1 as [| y keys Hy Hnd IH]; intros Hin; [destruct Hin |].
  simpl. destruct (b =? y) eqn:E.
  - apply Z.eqb_eq in E. subst y.
    assert (H0 : fold_right Nat.add 0%nat
                   (map (fun m => if b =? m then 1%nat else 0%nat) keys)
                 = 0%nat).
    { clear IH Hnd Hin. induction keys as [| z keys IHk]; [reflexivity |].
      simpl. destruct (b =? z) eqn:Ez.
      - apply Z.eqb_eq in Ez. subst z. exfalso. apply Hy. now left.
      - apply IHk. intros H. apply Hy. now right. }
    now rewrite H0.
  - apply Z.eqb_neq in E. destruct Hin as [-> | Hin]; [congruence |].
    now apply IH.
Qed.

(** Bins that are distinct and cover every row count every row once. *)
Lemma sum_bins (keys : list Z) (df : DataFrame) :
  NoDup keys ->
  (forall r, In r df -> In (to_period_M (timestamp r)) keys) ->
  fold_right Nat.add 0%nat (map (fun m => Pandas.bucket_size m df) keys)
  = List.length df.
Proof.
  intros Hnd. induction df as [| r df IH]; intros Hall.
  - clear. induction keys as [| k keys IHk]; [reflexivity | exact IHk].
  - assert (E : map (fun m => Pandas.bucket_size m (r :: df)) keys
                = map (fun m => ((if (to_period_M (timestamp r) =? m)%Z
                                  then 1 else 0)
                                 + Pandas.bucket_size m df)%nat) keys).
    { apply map_ext. intros m. apply bucket_size_cons. }
    rewrite E. clear E.
    assert (Hsplit : forall (f g : Z -> nat) l,
               fold_right Nat.add 0%nat (map (fun m => (f m + g m)%nat) l)
               = (fold_right Nat.add 0%nat (map f l)
                  + fold_right Nat.add 0%nat (map g l))%nat).
    { intros f g l. induction l as [| x l IHl]; simpl; lia. }
    rewrite (Hsplit (fun m => if to_period_M (timestamp r) =? m
                              then 1%nat else 0%nat)
                    (fun m => Pandas.bucket_size m df)).
    rewrite sum_indicator_Z by (auto; apply Hall; now left).
    rewrite IH by (intros r' Hr'; apply Hall; now right).
    reflexivity.
Qed.

(** The monthly series of a non-empty frame has one bin for each
    calendar month from the month of the earliest row to the month of
    the latest, with no month skipped; the first and the last bin hold
    rows, and the bins together hold every row exactly once. *)
Theorem monthly_volume_covers_every_row (df : DataFrame) :
  df <> [] ->
  exists (lo : Z) (n : nat),
    map fst (Pandas.resample_M_size df)
    = map (fun i => lo + Z.of_nat i) (seq 0 (S n)) /\
    (forall m v, In (m, v) (Pandas.resample_M_size df) ->
                 v = Pandas.bucket_size m df) /\
    (0 < Pandas.bucket_size lo df)%nat /\
    (0 < Pandas.bucket_size (lo + Z.of_nat n) df)%nat /\
    fold_right Nat.add 0%nat (map snd (Pandas.resample_M_size df))
    = List.length df.
Proof.
  destruct df as [| r0 df]; [congruence |]. intros _.
  unfold Pandas.resample_M_size.
  set (bs := map (fun r => to_period_M (timestamp r)) df).
  set (b := to_period_M (timestamp r0)).
  change (map (fun r => to_period_M (timestamp r)) (r0 :: df)) with (b :: bs).
  cbv zeta.
  pose proof (fold_min_in b bs) as Hlo_in.
  pose proof (fold_max_in b bs) as Hhi_in.
  assert (Hrange : forall x, In x (b :: bs) ->
                     fold_right Z.min b bs <= x <= fold_right Z.max b bs).
  { intros x Hx. split; [now apply fold_min_le | now apply fold_max_ge]. }
  set (lo := fold_right Z.min b bs) in *.
  set (hi := fold_right Z.max b bs) in *.
  assert (Hlohi : lo <= hi) by (specialize (Hrange b (or_introl eq_refl)); lia).
  assert (Hbucket : forall x, In x (b :: bs) ->
                      (0 < Pandas.bucket_size x (r0 :: df))%nat).
  { intros x Hx. apply bucket_size_pos.
    change (b :: bs) with (map (fun r => to_period_M (timestamp r)) (r0 :: df))
      in Hx.
    apply in_map_iff in Hx. destruct Hx as [r [Hr Hin]]. now exists r. }
  exists lo, (Z.to_nat (hi - lo)).
  split; [| split; [| split; [| split]]].
  - rewrite map_map. reflexivity.
  - intros m v Hin. apply in_map_iff in Hin.
    now destruct Hin as [i [[= <- <-] _]].
  - now apply Hbucket.
  - replace (lo + Z.of_nat (Z.to_nat (hi - lo))) with hi by lia.
    now apply Hbucket.
  - rewrite map_map. simpl snd.
    rewrite <- (map_map (fun i => lo + Z.of_nat i)
                        (fun m => Pandas.bucket_size m (r0 :: df))).
    apply sum_bins.
    + apply Finite.Injective_map_NoDup; [| apply seq_NoDup].
      intros i j H. lia.
    + intros r Hr. apply in_map_iff.
      assert (Hin : In (to_period_M (timestamp r)) (b :: bs)).
      { change (b :: bs)
          with (map (fun r => to_period_M (timestamp r)) (r0 :: df)).
        now apply (in_map (fun r => to_period_M (timestamp r))). }
      specialize (Hrange _ Hin).
      exists (Z.to_nat (to_period_M (timestamp r) - lo)).
      split; [lia | apply in_seq; lia].
Qed.

Lemma monthly_volume_covers_every_row_witness :
  fold_right Nat.add 0%nat
    (map snd (Pandas.resample_M_size (Stub.frame Stub.three_rows)))
  = List.length (Stub.frame Stub.three_rows).
Proof.
  destruct (monthly_volume_covers_every_row (Stub.frame Stub.three_rows))
    as [lo [n [_ [_ [_ [_ H]]]]]]; [discriminate | exact H].
Defined.

(** Two timestamps with valid months fall into the same month bucket
    exactly when they agree on year and month, whatever their days, and
    the buckets are ordered as the months are in time. *)
Theorem month_bucket_is_year_and_month (t1 t2 : Timestamp) :
  1 <= ts_month t1 <= 12 ->
  1 <= ts_month t2 <= 12 ->
  (to_period_M t1 = to_period_M t2 <->
   ts_year t1 = ts_year t2 /\ ts_month t1 = ts_month t2) /\
  (to_period_M t1 < to_period_M t2 <->
   ts_year t1 < ts_year t2 \/
   (ts_year t1 = ts_year t2 /\ ts_month t1 < ts_month t2)).
Proof.
  unfold to_period_M. intros H1 H2. split; split; lia.
Qed.

Lemma month_bucket_is_year_and_month_witness :
  to_period_M (mkTimestamp 2025 1 15) = to_period_M (mkTimestamp 2025 1 20) /\
  to_period_M (mkTimestamp 2024 12 31) < to_period_M (mkTimestamp 2025 1 1).
Proof.
  split.
  - apply (month_bucket_is_year_and_month
             (mkTimestamp 2025 1 15) (mkTimestamp 2025 1 20)); simpl; lia.
  - apply (month_bucket_is_year_and_month
             (mkTimestamp 2024 12 31) (mkTimestamp 2025 1 1)); simpl; lia.
Defined.



Local Close Scope Z_scope.

(** ** How the summary and a whole run can end *)


(** Splits a statement about the trace of a run into its parts and
    settles each by looking through the events of the trace. *)
Ltac trace_case :=
  repeat match goal with |- _ /\ _ => split end;
  intros;
  repeat match goal with
         | H : In _ _ |- _ => simpl in H
         | H : _ \/ _ |- _ => destruct H
         | H : False |- _ => destruct H
         end;
  try discriminate;
  repeat match goal with
         | E : CalledPdf _ _ _ = CalledPdf _ _ _ |- _ =>
             injection E as <- <- <-
         end;
  eauto 10.

Section Run.

Variable polarity : string -> Q.
Variable parse_datetime : string -> option Timestamp.
Variable read_csv : string -> option (list RawRow).
Variable rnd : Q -> Q.
Variable format_1f : Q -> string.
Variable create_visualizations : DataFrame -> outcome unit.
Variable create_pdf_report : DataFrame -> string -> string -> outcome string.

Let run : io unit :=
  main polarity parse_datetime read_csv rnd format_1f
       create_visualizations create_pdf_report.

Let loaded : outcome (option DataFrame) :=
  load_and_process_data polarity parse_datetime read_csv "sample_feedback.csv".

(** A missing data file ends the run without an exception: the error
    line is printed after the opening line and nothing else happens;
    neither the charts nor the PDF step is called. *)
Theorem main_missing_file :
  read_csv "sample_feedback.csv" = None ->
  run = ([ Printed "--- Starting Resident Feedback Analysis Pipeline ---";
           Printed "ERROR: Data file not found at 'sample_feedback.csv'." ],
         Return tt).
Proof.
  intros H. unfold run, main, load_and_process_data_io, load_and_process_data.
  rewrite H. reflexivity.
Qed.

(** The run never reports a step that did not happen: each progress
    line is printed only after the step it names has returned, and the
    PDF step is called only after the charts were drawn, with the frame
    that was loaded and the two texts the summary returned for it. *)
Theorem main_reports_progress_truthfully :
  (In (Printed "Step 1: Data processed successfully.") (fst run) ->
   exists df, loaded = Return (Some df)) /\
  (In (Printed "Step 2: Visualizations created.") (fst run) ->
   exists df, loaded = Return (Some df) /\
              create_visualizations df = Return tt) /\
  (forall df findings recommendations,
      In (CalledPdf df findings recommendations) (fst run) ->
      loaded = Return (Some df) /\
      create_visualizations df = Return tt /\
      generate_executive_summary rnd format_1f df =
      Return (findings, recommendations)) /\
  (In (Printed "Step 4: PDF report compiled successfully.") (fst run) ->
   exists df findings recommendations path,
     loaded = Return (Some df) /\
     generate_executive_summary rnd format_1f df =
     Return (findings, recommendations) /\
     create_pdf_report df findings recommendations = Return path /\
     snd run = Return tt).
Proof.
  unfold run, loaded, main, load_and_process_data_io, print, emit, io_ret.
  destruct (read_csv "sample_feedback.csv") as [rows |] eqn:Hfile.
  - destruct (load_and_process_data polarity parse_datetime read_csv
                "sample_feedback.csv") as [[df |] | e] eqn:Hload; simpl;
      [| trace_case | trace_case].
    destruct (create_visualizations df) as [[] | e] eqn:Hcharts; simpl;
      [| trace_case].
    destruct (generate_executive_summary rnd format_1f df)
      as [[f r] | e] eqn:Hsum; simpl; [| trace_case].
    destruct (create_pdf_report df f r) as [path | e] eqn:Hpdf; simpl;
      trace_case.
  - unfold load_and_process_data. rewrite Hfile. simpl. trace_case.
Qed.


End Run.

Lemma main_missing_file_witness :
  main Stub.polarity Stub.parse_datetime
       (Stub.read_csv "archive.csv" Stub.three_rows)
       Stub.rnd_exact Stub.format_1f
       Stub.create_visualizations Stub.create_pdf_report
  = ([ Printed "--- Starting Resident Feedback Analysis Pipeline ---";
       Printed "ERROR: Data file not found at 'sample_feedback.csv'." ],
     Return tt).
Proof.
  apply (main_missing_file Stub.polarity Stub.parse_datetime
           (Stub.read_csv "archive.csv" Stub.three_rows)
           Stub.rnd_exact Stub.format_1f
           Stub.create_visualizations Stub.create_pdf_report).
  reflexivity.
Defined.

Lemma main_reports_progress_truthfully_witness :
  snd (main Stub.polarity Stub.parse_datetime
            (Stub.read_csv "sample_feedback.csv" Stub.three_rows)
            Stub.rnd_exact Stub.format_1f
            Stub.create_visualizations Stub.create_pdf_report)
  = Return tt.
Proof.
  destruct (main_reports_progress_truthfully Stub.polarity Stub.parse_datetime
              (Stub.read_csv "sample_feedback.csv" Stub.three_rows)
              Stub.rnd_exact Stub.format_1f
              Stub.create_visualizations Stub.create_pdf_report)
    as [_ [_ [_ H]]].
  destruct H as [df [f [r [path [_ [_ [_ Hrun]]]]]]].
  - vm_compute. auto 10.
  - exact Hrun.
Defined.


(** ** The table behind the stacked bar chart *)

Lemma insert_sorted_perm (x : string) (l : list string) :
  Permutation (insert_sorted x l) (x :: l).
Proof.
  induction l as [| y l IH]; simpl; [reflexivity |].
  destruct (String.leb x y); [reflexivity |].
  rewrite IH. apply perm_swap.
Qed.

Lemma sorted_labels_perm (col : list string) :
  Permutation (sorted_labels col) (Pandas.unique col).
Proof.
  unfold sorted_labels. induction (Pandas.unique col) as [| x l IH]; simpl.
  - reflexivity.
  - rewrite insert_sorted_perm. now constructor.
Qed.

Lemma sorted_labels_In (k : string) (col : list string) :
  In k (sorted_labels col) <-> In k col.
Proof.
  split; intros H.
  - apply (proj1 (unique_In k col)).
    apply (Permutation_in _ (sorted_labels_perm col) H).
  - apply (Permutation_in _ (Permutation_sym (sorted_labels_perm col))).
    now apply (proj2 (unique_In k col)).
Qed.

Lemma sorted_labels_NoDup (col : list string) : NoDup (sorted_labels col).
Proof.
  apply (Permutation_NoDup (Permutation_sym (sorted_labels_perm col))).
  apply unique_NoDup.
Qed.

(** A cell of a normalised count series, looked up with default 0. *)
Lemma normalized_get (rnd : Q -> Q) (col : list string) (k : string) :
  (In k col ->
   Pandas.get k 0%Q (value_counts_normalize rnd col) =
   rnd (inject_Z (Z.of_nat (Pandas.count k col)) /
        inject_Z (Z.of_nat (List.length col)))%Q) /\
  (~ In k col -> Pandas.get k 0%Q (value_counts_normalize rnd col) = 0%Q).
Proof.
  unfold value_counts_normalize. rewrite value_counts_total.
  set (cell := fun c : nat =>
                 rnd (inject_Z (Z.of_nat c) /
                      inject_Z (Z.of_nat (List.length col)))%Q).
  assert (Emap : map (fun '(k, c) =>
                        (k, rnd (inject_Z (Z.of_nat c) /
                                 inject_Z (Z.of_nat (List.length col)))%Q))
                     (Pandas.value_counts col)
                 = map (fun x => (fst x, cell (snd x)))
                       (Pandas.value_counts col)).
  { apply map_ext. now intros [k' c]. }
  rewrite Emap. clear Emap.
  assert (Hkeys : map fst (map (fun x : string * nat => (fst x, cell (snd x)))
                               (Pandas.value_counts col))
                  = map fst (Pandas.value_counts col)).
  { rewrite map_map. reflexivity. }
  split.
  - intros Hin. apply get_present.
    + rewrite Hkeys.
      apply (Permutation_NoDup (Permutation_sym (value_counts_keys col))).
      apply unique_NoDup.
    + apply in_map_iff. exists (k, Pandas.count k col).
      split; [reflexivity |]. now apply value_counts_In.
  - intros Hnot. apply get_absent. rewrite Hkeys. intros Hin.
    apply (Permutation_in _ (value_counts_keys col)) in Hin.
    apply (proj1 (unique_In _ _)) in Hin. now apply Hnot.
Qed.

Local Open Scope Q_scope.

Lemma qsum_close {A : Type} (cell x : A -> Q) (l : list A) :
  (forall a, In a l ->
             0 <= x a /\
             - (PyFloat.eps * x a) <= cell a - x a /\
             cell a - x a <= PyFloat.eps * x a) ->
  - (PyFloat.eps * PyFloat.qsum (map x l)) <=
    PyFloat.qsum (map cell l) - PyFloat.qsum (map x l) /\
  PyFloat.qsum (map cell l) - PyFloat.qsum (map x l) <=
    PyFloat.eps * PyFloat.qsum (map x l).
Proof.
  induction l as [| a l IH]; intros H; simpl.
  - unfold PyFloat.eps. split; lra.
  - destruct (H a (or_introl eq_refl)) as [H0 [H1 H2]].
    destruct IH as [IH1 IH2]; [intros b Hb; apply H; now right |].
    unfold PyFloat.eps in *. split; lra.
Qed.

(** In the table behind the stacked bar chart the rows are the topics
    of the frame and the columns the sentiments found in it, both in
    ascending order; a cell is 0 where the topic has no row of that
    sentiment, and with float division rounding to within one unit
    roundoff the cells of each row add up to 1 within that roundoff, so
    every bar has full length. *)
Theorem sentiment_by_topic_rows_sum_to_one (rnd : Q -> Q) (df : DataFrame) :
  PyFloat.rounds rnd ->
  map fst (sentiment_by_topic rnd df) = sorted_labels (map topic df) /\
  forall t row,
    In (t, row) (sentiment_by_topic rnd df) ->
    In t (map topic df) /\
    map fst row = sorted_labels (map sentiment df) /\
    (forall s v, In (s, v) row ->
                 (forall r, In r df -> topic r = t -> sentiment r <> s) ->
                 v = 0) /\
    Qabs (PyFloat.qsum (map snd row) - 1) <= PyFloat.eps /\
    Qabs (PyFloat.qsum (map snd row) - 1) <= 1 # 1000000000.
Proof.
  intros Hrnd. unfold sentiment_by_topic. split.
  - rewrite map_map. simpl. apply map_id.
  - intros t row Hin. apply in_map_iff in Hin.
    destruct Hin as [t' [[= -> <-] Ht]].
    apply (proj1 (sorted_labels_In _ _)) in Ht.
    set (group := map sentiment (filter (fun r => String.eqb (topic r) t) df)).
    set (columns := sorted_labels (map sentiment df)).
    assert (Hgroup : forall s, In s group <->
                               exists r, In r df /\ topic r = t /\ sentiment r = s).
    { intros s. unfold group. rewrite in_map_iff. split.
      - intros [r [Hs Hr]]. apply filter_In in Hr. destruct Hr as [Hr Ht'].
        apply String.eqb_eq in Ht'. now exists r.
      - intros [r [Hr [Ht' Hs]]]. exists r. split; [exact Hs |].
        apply filter_In. split; [exact Hr | now apply String.eqb_eq]. }
    assert (Hne : group <> []).
    { apply in_map_iff in Ht. destruct Ht as [r [Hr Hin]].
      assert (H : In (sentiment r) group)
        by (apply (proj2 (Hgroup _)); now exists r).
      intros E. rewrite E in H. destruct H. }
    split; [exact Ht | split; [| split]].
    + rewrite map_map. simpl. apply map_id.
    + intros s v Hsv Hnone. apply in_map_iff in Hsv.
      destruct Hsv as [s' [[= -> <-] _]].
      apply (proj2 (normalized_get rnd group _)). intros Hin.
      apply (proj1 (Hgroup _)) in Hin.
      destruct Hin as [r [Hr [Ht' Hs]]]. now apply (Hnone r).
    + assert (Hbound :
                Qabs (PyFloat.qsum
                        (map snd
                           (map (fun s =>
                                   (s, Pandas.get s 0
                                         (value_counts_normalize rnd group)))
                                columns)) - 1) <= PyFloat.eps).
      { rewrite map_map. simpl snd.
        set (tq := inject_Z (Z.of_nat (List.length group))).
        set (x := fun s => inject_Z (Z.of_nat (Pandas.count s group)) / tq).
        assert (Htq : ~ tq == 0).
        { unfold tq. destruct group as [| g0 group']; [congruence |].
          simpl List.length. unfold Qeq, inject_Z. simpl Qnum. simpl Qden. lia. }
        assert (Hone : PyFloat.qsum (map x columns) == 1).
        { unfold x.
          rewrite <- (map_map (fun s => Pandas.count s group)
                              (fun c => inject_Z (Z.of_nat c) / tq)).
          rewrite qsum_fractions.
          rewrite (sum_counts columns group (sorted_labels_NoDup _)).
          - fold tq. unfold Qdiv. now apply Qmult_inv_r.
          - intros k Hk. apply (proj2 (sorted_labels_In _ _)).
            apply (proj1 (Hgroup _)) in Hk.
            destruct Hk as [r [Hr [_ <-]]]. now apply in_map. }
        destruct (qsum_close
                    (fun s => Pandas.get s 0 (value_counts_normalize rnd group))
                    x columns) as [Hlo Hhi].
        { intros s _. unfold x, tq.
          destruct (in_dec string_dec s group) as [Hs | Hs].
          - rewrite (proj1 (normalized_get rnd group s) Hs).
            pose proof (fraction_nonneg (Pandas.count s group)
                                        (List.length group)) as H0.
            pose proof (Hrnd (inject_Z (Z.of_nat (Pandas.count s group)) /
                              inject_Z (Z.of_nat (List.length group)))) as Hr.
            apply Qabs_Qle_condition in Hr.
            rewrite (Qabs_pos _ H0) in Hr. destruct Hr. auto.
          - rewrite (proj2 (normalized_get rnd group s) Hs).
            assert (Hc : Pandas.count s group = 0%nat).
            { destruct (Nat.eq_dec (Pandas.count s group) 0) as [E | E];
                [exact E |].
              exfalso. apply Hs. apply (proj1 (count_pos_iff _ _)). lia. }
            rewrite Hc. simpl Z.of_nat.
            assert (Hz : inject_Z 0 / inject_Z (Z.of_nat (List.length group))
                         == 0) by (unfold Qdiv; ring).
            rewrite Hz. unfold PyFloat.eps. repeat split; lra. }
        rewrite Hone in Hlo, Hhi.
        apply Qabs_Qle_condition. unfold PyFloat.eps in *. split; lra. }
      split; [exact Hbound |].
      apply (Qle_trans _ _ _ Hbound). unfold PyFloat.eps. discriminate.
Qed.

Lemma sentiment_by_topic_rows_sum_to_one_witness :
  map fst (sentiment_by_topic Stub.rnd_up (Stub.frame Stub.three_rows))
  = ["Parks, Rec & Library"; "Public Works - Sanitation";
     "Public Works - Transportation"]%string.
Proof.
  destruct (sentiment_by_topic_rows_sum_to_one Stub.rnd_up
              (Stub.frame Stub.three_rows) rnd_up_rounds) as [H _].
  rewrite H. reflexivity.
Defined.

Local Close Scope Q_scope.
